(** * Impulso Inversor v2: the front-end contracts and the risk engine

    A shallow embedding of the TypeScript sources of the React client
    ([services/api.ts], [types], [context/AuthContext.tsx],
    [pages/profile/RiskAssessmentPage.tsx]) and of the two engine operations
    whose code lives in the Flask back end.

    JavaScript values are modelled by [Js.JsValue]; objects used as maps
    ([RISK_BUCKETS], [ETF_COLORS]) are finite maps keyed by property name;
    promises are modelled by how they settle. *)

From Stdlib Require Import ZArith QArith Qround String List Bool Lia.
From stdpp Require Import base option gmap strings list pretty.

Set Warnings "-register-all".

Local Open Scope string_scope.
Local Open Scope Z_scope.

(** ** JavaScript values *)

Module Js.

(** A JS [number]: a finite double (every finite double is a rational),
    [NaN] or one of the two infinities. *)
Inductive JsNumber : Type :=
| Finite (q : Q)
| NaN
| PosInfinity
| NegInfinity.

Inductive JsValue : Type :=
| VUndefined
| VNull
| VBool (b : bool)
| VNumber (n : JsNumber)
| VString (s : string)
| VObject (props : list (string * JsValue)).

(** [a < b] on numbers; any comparison with [NaN] is false. *)
Definition num_lt (a b : JsNumber) : bool :=
  match a, b with
  | NaN, _ | _, NaN => false
  | Finite x, Finite y => negb (Qle_bool y x)
  | Finite _, PosInfinity => true
  | Finite _, NegInfinity => false
  | PosInfinity, _ => false
  | NegInfinity, NegInfinity => false
  | NegInfinity, _ => true
  end.

(** [a > b] is [b < a]. *)
Definition num_gt (a b : JsNumber) : bool := num_lt b a.

Definition of_Z (z : Z) : JsNumber := Finite (inject_Z z).

(** ToBoolean. *)
Definition truthy (v : JsValue) : bool :=
  match v with
  | VUndefined | VNull => false
  | VBool b => b
  | VNumber (Finite q) => negb (Qeq_bool q 0)
  | VNumber NaN => false
  | VNumber _ => true
  | VString s => negb (String.eqb s "")
  | VObject _ => true
  end.

(** Own-property lookup in a property list; the first binding wins. *)
Fixpoint assoc (key : string) (props : list (string * JsValue)) : option JsValue :=
  match props with
  | [] => None
  | (k, v) :: rest => if String.eqb k key then Some v else assoc key rest
  end.

(** [v.key] for a [v] that is neither [undefined] nor [null] (the callers
    below guard against those before reading). A missing property reads as
    [undefined]; primitives have none of the properties read here. *)
Definition get_prop (v : JsValue) (key : string) : JsValue :=
  match v with
  | VObject props => default VUndefined (assoc key props)
  | _ => VUndefined
  end.

(** [a || b] on strings. *)
Definition str_or (a b : string) : string :=
  if truthy (VString a) then a else b.

(** How an awaited promise settles, or how a block of code completes. *)
Inductive Settled (A E : Type) : Type :=
| Fulfilled (a : A)
| Rejected (e : E).
Arguments Fulfilled {A E} a.
Arguments Rejected {A E} e.

End Js.

Import Js.

(** ** The shared types and constants ([types]) *)

Module Types.

(** [interface User]. The optional names are absent ([None]) or strings. *)
Record User : Type := mkUser {
  id : Z;
  email : string;
  first_name : option string;
  last_name : option string;
  full_name : string;
  is_active : bool;
  created_at : string;
  updated_at : string;
  has_risk_profile : bool;
  has_portfolio : bool
}.

(** [Partial<User>]: every property may be absent. *)
Record PartialUser : Type := mkPartialUser {
  p_id : option Z;
  p_email : option string;
  p_first_name : option (option string);
  p_last_name : option (option string);
  p_full_name : option string;
  p_is_active : option bool;
  p_created_at : option string;
  p_updated_at : option string;
  p_has_risk_profile : option bool;
  p_has_portfolio : option bool
}.

(** [{ ...user, ...patch }]: a property of the patch overrides the user's. *)
Definition spread (u : User) (p : PartialUser) : User :=
  {| id := default (id u) (p_id p);
     email := default (email u) (p_email p);
     first_name := default (first_name u) (p_first_name p);
     last_name := default (last_name u) (p_last_name p);
     full_name := default (full_name u) (p_full_name p);
     is_active := default (is_active u) (p_is_active p);
     created_at := default (created_at u) (p_created_at p);
     updated_at := default (updated_at u) (p_updated_at p);
     has_risk_profile := default (has_risk_profile u) (p_has_risk_profile p);
     has_portfolio := default (has_portfolio u) (p_has_portfolio p) |}.

(** [interface QuestionnaireAnswers]. *)
Record QuestionnaireAnswers : Type := mkAnswers {
  age : JsNumber;
  horizon : string;
  income : string;
  knowledge : string;
  max_drop : string;
  reaction : string;
  liquidity : string;
  goal : string;
  inflation : string;
  digital : string
}.

(** The property names of [QuestionnaireAnswers], in declaration order. *)
Definition QuestionnaireAnswers_keys : list string :=
  ["age"; "horizon"; "income"; "knowledge"; "max_drop"; "reaction";
   "liquidity"; "goal"; "inflation"; "digital"].

(** The answers as the JS object the form hands to the API. *)
Definition answers_object (a : QuestionnaireAnswers) : JsValue :=
  VObject [("age", VNumber (age a)); ("horizon", VString (horizon a));
           ("income", VString (income a)); ("knowledge", VString (knowledge a));
           ("max_drop", VString (max_drop a)); ("reaction", VString (reaction a));
           ("liquidity", VString (liquidity a)); ("goal", VString (goal a));
           ("inflation", VString (inflation a)); ("digital", VString (digital a))].

(** One entry of [RISK_BUCKETS]. *)
Record RiskBucketInfo : Type := mkBucket {
  label : string;
  color : string;
  description : string
}.

(** [RISK_BUCKETS]: an object literal with the numeric keys 0..4; property
    keys of a JS object are strings, a numeric key is its decimal form. *)
Definition RISK_BUCKETS : gmap string RiskBucketInfo :=
  <["0" := mkBucket "Conservador" "#4CAF50" "Prioriza preservación del capital"]>
  (<["1" := mkBucket "Moderado" "#2196F3" "Balance entre seguridad y crecimiento"]>
  (<["2" := mkBucket "Balanceado" "#FF9800" "Distribución equilibrada"]>
  (<["3" := mkBucket "Crecimiento" "#FF5722" "Enfocado en crecimiento largo plazo"]>
  (<["4" := mkBucket "Agresivo" "#9C27B0" "Máximo crecimiento, alta volatilidad"]> ∅)))).







(** [type RiskBucket = keyof typeof RISK_BUCKETS]: the literal union
    0 | 1 | 2 | 3 | 4. *)
Inductive RiskBucket : Type := B0 | B1 | B2 | B3 | B4.

Definition RiskBucket_value (b : RiskBucket) : Z :=
  match b with B0 => 0 | B1 => 1 | B2 => 2 | B3 => 3 | B4 => 4 end.





(** ToPropertyKey on an integer-valued number: Number::toString prints the
    decimal digits, with a leading minus sign below zero. *)
Definition property_key (z : Z) : string := pretty z.

End Types.

Import Types.

(** ** The part of zod the questionnaire schema uses *)

Module Zod.

Inductive ZodIssueCode : Type := invalid_type | too_small | too_big.

Record ZodIssue : Type := mkIssue {
  code : ZodIssueCode;
  path : list string;
  message : string
}.

(** A check added by [.min(value, message)] or [.max(value, message)];
    both bounds are inclusive. *)
Inductive ZodCheck : Type :=
| check_min (value : Z) (message : string)
| check_max (value : Z) (message : string).

(** [z.number()] and [z.string()] with their checks, in the order added. *)
Inductive ZodType : Type :=
| z_number (checks : list ZodCheck)
| z_string (checks : list ZodCheck).

(** [z.object(shape)]: the keys in declaration order. *)
Definition ZodRawShape : Type := list (string * ZodType).

Inductive SafeParseReturnType : Type :=
| parse_success (data : JsValue)
| parse_error (issues : list ZodIssue).

(** getParsedType: a [NaN] is of type [nan], not [number]. *)
Definition getParsedType (v : JsValue) : string :=
  match v with
  | VUndefined => "undefined"
  | VNull => "null"
  | VBool _ => "boolean"
  | VNumber NaN => "nan"
  | VNumber _ => "number"
  | VString _ => "string"
  | VObject _ => "object"
  end.

(** The default error map's message for a value of the wrong type. *)
Definition invalid_type_issue (expected : string) (p : list string) (v : JsValue) : ZodIssue :=
  mkIssue invalid_type p
    (match v with
     | VUndefined => "Required"
     | _ => "Expected " +:+ expected +:+ ", received " +:+ getParsedType v
     end).

(** ZodNumber: [input < value] fails a min check, [input > value] a max check. *)
Definition number_check (p : list string) (input : JsNumber) (c : ZodCheck) : list ZodIssue :=
  match c with
  | check_min value msg =>
      if num_lt input (of_Z value) then [mkIssue too_small p msg] else []
  | check_max value msg =>
      if num_gt input (of_Z value) then [mkIssue too_big p msg] else []
  end.

(** ZodString: the checks compare [input.length]. (The length counts UTF-16
    units in JS and bytes here; both are zero on the empty string only,
    which is all that [min(1)] asks.) *)
Definition string_check (p : list string) (input : string) (c : ZodCheck) : list ZodIssue :=
  match c with
  | check_min value msg =>
      if Z.of_nat (String.length input) <? value then [mkIssue too_small p msg] else []
  | check_max value msg =>
      if Z.of_nat (String.length input) >? value then [mkIssue too_big p msg] else []
  end.

(** [_parse] of a field schema: the issues it raises (none: the value is
    accepted, and is passed on as it is). *)
Definition parse_field (t : ZodType) (p : list string) (input : JsValue) : list ZodIssue :=
  match t with
  | z_number checks =>
      match input with
      | VNumber NaN => [invalid_type_issue "number" p input]
      | VNumber n => flat_map (number_check p n) checks
      | _ => [invalid_type_issue "number" p input]
      end
  | z_string checks =>
      match input with
      | VString s => flat_map (string_check p s) checks
      | _ => [invalid_type_issue "string" p input]
      end
  end.

(** The issues of every key of the shape, read from [data]. *)
Definition shape_issues (shape : ZodRawShape) (data : JsValue) : list ZodIssue :=
  flat_map (fun kt => parse_field (snd kt) [fst kt] (get_prop data (fst kt))) shape.

(** [z.object(shape).safeParse(data)]: every key of the shape is parsed,
    all issues are collected, unknown keys are stripped. *)
Definition safeParse (shape : ZodRawShape) (data : JsValue) : SafeParseReturnType :=
  match data with
  | VObject _ =>
      match shape_issues shape data with
      | [] => parse_success (VObject (map (fun kt => (fst kt, get_prop data (fst kt))) shape))
      | issues => parse_error issues
      end
  | _ => parse_error [invalid_type_issue "object" [] data]
  end.

Definition accepts (shape : ZodRawShape) (data : JsValue) : bool :=
  match safeParse shape data with parse_success _ => true | parse_error _ => false end.

End Zod.

Import Zod.

(** ** The API client ([services/api.ts]) *)

Module Api.

Inductive Method : Type := GET | POST | PUT | DELETE.

(** What [apiClient.request] is called with. *)
Record RequestConfig : Type := mkRequest {
  method : Method;
  url : string;
  data : JsValue
}.

(** An [AxiosResponse]: the status and the decoded body (its [data]). *)
Record AxiosResponse : Type := mkResponse {
  status : Z;
  body : JsValue
}.

(** What a rejected request is rejected with: an [AxiosError], which has a
    message and, when the server answered, the response; or anything else
    that was thrown. *)
Inductive Thrown : Type :=
| AxiosError (message : string) (response : option AxiosResponse)
| OtherError (v : JsValue).

Definition isAxiosError (e : Thrown) : bool :=
  match e with AxiosError _ _ => true | OtherError _ => false end.

(** [error.response?.data] of an axios error. *)
Definition response_data (e : Thrown) : JsValue :=
  match e with
  | AxiosError _ (Some r) => body r
  | _ => VUndefined
  end.

(** [error.message] of an axios error. *)
Definition error_message (e : Thrown) : string :=
  match e with
  | AxiosError message _ => message
  | OtherError _ => ""
  end.

(** [interface ApiResponse] is an object type: whether a value is an
    object at all. *)
Definition is_object (v : JsValue) : bool :=
  match v with
  | VObject _ => true
  | _ => false
  end.

(** The object literal [{ success: false, error }]. *)
Definition failure (error : string) : JsValue :=
  VObject [("success", VBool false); ("error", VString error)].

Section Client.

(** The axios instance with its interceptors: how the request settles. *)
Variable apiClient_request : RequestConfig -> Settled AxiosResponse Thrown.

(** [async function apiRequest(method, endpoint, data)]: the promise it
    returns settles with a value, or would be rejected with what escaped
    the [try]/[catch]. *)
Definition apiRequest (m : Method) (endpoint : string) (payload : JsValue)
  : Settled JsValue Thrown :=
  match apiClient_request (mkRequest m endpoint payload) with
  | Fulfilled response => Fulfilled (body response)
  | Rejected error =>
      if isAxiosError error then
        let apiError := response_data error in
        if truthy apiError && negb (truthy (get_prop apiError "success"))
        then Fulfilled apiError
        else Fulfilled (failure (str_or (error_message error) "Error de conexión"))
      else Fulfilled (failure "Error inesperado")
  end.

(** [api.analysis.createRiskProfile(answers)]. *)
Definition createRiskProfile (answers : JsValue) : Settled JsValue Thrown :=
  apiRequest POST "/api/analysis/risk-profile" (VObject [("answers", answers)]).

(** [api.analysis.simulateScore(answers)]. *)
Definition simulateScore (answers : JsValue) : Settled JsValue Thrown :=
  apiRequest POST "/api/analysis/simulate-score" (VObject [("answers", answers)]).

(** [api.etfs.analyzeDiversification(allocations)]. *)
Definition analyzeDiversification (allocations : JsValue) : Settled JsValue Thrown :=
  apiRequest POST "/api/etfs/diversification" (VObject [("allocations", allocations)]).

End Client.

End Api.

(** ** The risk questionnaire page ([pages/profile/RiskAssessmentPage.tsx]) *)

Module RiskAssessmentPage.

(** [riskAssessmentSchema]. *)
Definition riskAssessmentSchema : ZodRawShape :=
  [("age", z_number [check_min 18 "Debe ser mayor de 18 años";
                     check_max 100 "Edad máxima 100 años"]);
   ("horizon", z_string [check_min 1 "Seleccione un horizonte de inversión"]);
   ("income", z_string [check_min 1 "Seleccione porcentaje de ingresos"]);
   ("knowledge", z_string [check_min 1 "Seleccione nivel de conocimiento"]);
   ("max_drop", z_string [check_min 1 "Seleccione caída máxima tolerable"]);
   ("reaction", z_string [check_min 1 "Seleccione su reacción"]);
   ("liquidity", z_string [check_min 1 "Seleccione necesidad de liquidez"]);
   ("goal", z_string [check_min 1 "Seleccione objetivo principal"]);
   ("inflation", z_string [check_min 1 "Seleccione preocupación por inflación"]);
   ("digital", z_string [check_min 1 "Seleccione confianza en plataformas digitales"])].

(** One option of a select: its submitted value and its displayed label. *)
Record SelectOption : Type := mkOption {
  value : string;
  option_label : string
}.

Inductive QuestionInput : Type :=
| slider (min max default : Z)
| select (options : list SelectOption).

Record Question : Type := mkQuestion {
  key : string;
  title : string;
  input : QuestionInput
}.

(** [questions]. *)
Definition questions : list Question :=
  [mkQuestion "age" "¿Cuál es tu edad?" (slider 18 75 30);
   mkQuestion "horizon" "¿Cuál es tu horizonte de inversión?"
     (select [mkOption "< 3 años" "Menos de 3 años";
              mkOption "3-5 años" "3 a 5 años";
              mkOption "5-10 años" "5 a 10 años";
              mkOption "> 10 años" "Más de 10 años"]);
   mkQuestion "income" "¿Qué porcentaje de tus ingresos destinas a inversiones?"
     (select [mkOption "< 5 %" "Menos del 5%";
              mkOption "5-10 %" "5% al 10%";
              mkOption "10-20 %" "10% al 20%";
              mkOption "> 20 %" "Más del 20%"]);
   mkQuestion "knowledge" "¿Cuál es tu nivel de conocimiento financiero?"
     (select [mkOption "Principiante" "Principiante";
              mkOption "Intermedio" "Intermedio";
              mkOption "Avanzado" "Avanzado"]);
   mkQuestion "max_drop" "¿Cuál es la máxima caída que tolerarías en tu portafolio?"
     (select [mkOption "5 %" "5%";
              mkOption "10 %" "10%";
              mkOption "20 %" "20%";
              mkOption "30 %" "30%";
              mkOption "> 30 %" "Más del 30%"]);
   mkQuestion "reaction" "Si tu portafolio cae 15%, ¿qué harías?"
     (select [mkOption "Vendo todo" "Vendería todo inmediatamente";
              mkOption "Vendo una parte" "Vendería una parte";
              mkOption "No hago nada" "No haría nada, esperaría";
              mkOption "Compro más" "Compraría más aprovechando la baja"]);
   mkQuestion "liquidity" "¿Cuál es tu necesidad de liquidez?"
     (select [mkOption "Alta" "Alta - Podría necesitar el dinero pronto";
              mkOption "Media" "Media - Alguna flexibilidad";
              mkOption "Baja" "Baja - No necesito el dinero por años"]);
   mkQuestion "goal" "¿Cuál es tu objetivo principal de inversión?"
     (select [mkOption "Proteger capital" "Proteger mi capital";
              mkOption "Ingresos regulares" "Generar ingresos regulares";
              mkOption "Crecimiento balanceado" "Crecimiento balanceado";
              mkOption "Máximo crecimiento" "Máximo crecimiento a largo plazo"]);
   mkQuestion "inflation" "¿Te preocupa la inflación?"
     (select [mkOption "No me preocupa" "No me preocupa";
              mkOption "Me preocupa moderadamente" "Me preocupa moderadamente";
              mkOption "Me preocupa mucho" "Me preocupa mucho"]);
   mkQuestion "digital" "¿Qué tan cómodo te sientes con plataformas digitales?"
     (select [mkOption "Baja" "Baja confianza";
              mkOption "Media" "Confianza media";
              mkOption "Alta" "Alta confianza"])].

(** The nine categorical fields: the questions answered through a select. *)
Definition categorical_fields : list string :=
  flat_map (fun q => match input q with select _ => [key q] | slider _ _ _ => [] end)
           questions.

(** The label set of a field: the values its select offers. *)
Definition label_set (field : string) : list string :=
  flat_map (fun q =>
              if String.eqb (key q) field
              then match input q with
                   | select options => map value options
                   | slider _ _ _ => []
                   end
              else [])
           questions.

Definition in_label_set (field : string) (v : JsValue) : bool :=
  match v with
  | VString s => existsb (String.eqb s) (label_set field)
  | _ => false
  end.

(** An age the schema's two bounds admit. *)
Definition in_age_range (n : JsNumber) : Prop :=
  match n with
  | Finite q => (18 <= q <= 100)%Q
  | _ => False
  end.

(** A submission with an issue at the given field. *)
Definition rejected_at (field : string) (data : JsValue) : Prop :=
  exists issues,
    safeParse riskAssessmentSchema data = parse_error issues /\
    exists i, In i issues /\ path i = [field].

(** The server's answer as the page reads it ([riskResult] is the [data] of
    the response): the integer score and bucket of a [RiskProfile], and the
    label the server attached. *)
Record RiskResult : Type := mkResult {
  total_score : Z;
  risk_bucket : Z;
  risk_label : string
}.

(** What the result view shows of [riskBucket], and the line that repeats
    the server's label. (The score text and the width of the score bar are
    numbers the browser prints, computed in binary64; they are not part of
    this view.) *)
Record ResultView : Type := mkView {
  badge_background : string;   (* `${riskBucket.color}20` *)
  icon_color : string;         (* riskBucket.color *)
  heading : string;            (* riskBucket.label *)
  blurb : string;              (* riskBucket.description *)
  bar_color : string;          (* riskBucket.color *)
  level_line : string          (* • Nivel de riesgo: {riskResult.risk_label} *)
}.

Inductive RenderError : Type :=
| TypeError (reading : string).  (* Cannot read properties of undefined *)

(** [RISK_BUCKETS[riskResult.risk_bucket]]: the bucket, or [undefined]. *)
Definition lookup_bucket (r : RiskResult) : option RiskBucketInfo :=
  RISK_BUCKETS !! property_key (risk_bucket r).

(** The branch [if (riskResult) { ... }] of the component: the first read
    of a property of an undefined [riskBucket] throws. *)
Definition render_result (r : RiskResult) : Settled ResultView RenderError :=
  match lookup_bucket r with
  | None => Rejected (TypeError "color")
  | Some riskBucket =>
      Fulfilled
        {| badge_background := color riskBucket +:+ "20";
           icon_color := color riskBucket;
           heading := label riskBucket;
           blurb := description riskBucket;
           bar_color := color riskBucket;
           level_line := "• Nivel de riesgo: " +:+ risk_label r |}
  end.

End RiskAssessmentPage.

(** ** The authentication state ([context/AuthContext.tsx]) *)

Module AuthContext.

Record AuthState : Type := mkState {
  user : option User;
  isAuthenticated : bool;
  isLoading : bool;
  error : option string
}.

Inductive AuthAction : Type :=
| AUTH_START
| AUTH_SUCCESS (payload : User)
| AUTH_ERROR (payload : string)
| AUTH_LOGOUT
| CLEAR_ERROR
| UPDATE_USER (payload : PartialUser).

Definition initialState : AuthState :=
  {| user := None; isAuthenticated := false; isLoading := true; error := None |}.

(** [authReducer]; [{ ...state, f: v }] keeps the other properties. *)
Definition authReducer (state : AuthState) (action : AuthAction) : AuthState :=
  match action with
  | AUTH_START =>
      {| user := user state;
         isAuthenticated := isAuthenticated state;
         isLoading := true;
         error := None |}
  | AUTH_SUCCESS payload =>
      {| user := Some payload;
         isAuthenticated := true;
         isLoading := false;
         error := None |}
  | AUTH_ERROR payload =>
      {| user := None;
         isAuthenticated := false;
         isLoading := false;
         error := Some payload |}
  | AUTH_LOGOUT =>
      {| user := None;
         isAuthenticated := false;
         isLoading := false;
         error := None |}
  | CLEAR_ERROR =>
      {| user := user state;
         isAuthenticated := isAuthenticated state;
         isLoading := isLoading state;
         error := None |}
  | UPDATE_USER payload =>
      {| user := match user state with
                 | Some u => Some (spread u payload)
                 | None => None
                 end;
         isAuthenticated := isAuthenticated state;
         isLoading := isLoading state;
         error := error state |}
  end.

(** The states [useReducer(authReducer, initialState)] can hold: the
    initial one, and what a dispatched action makes of a reachable one. *)
Inductive reachable : AuthState -> Prop :=
| reachable_initial : reachable initialState
| reachable_dispatch state action :
    reachable state -> reachable (authReducer state action).

(** The invariant of the reducer: a state that claims a session holds a user. *)
Definition session_has_user (s : AuthState) : Prop :=
  isAuthenticated s = true -> user s <> None.

(** The state after a sequence of dispatches, oldest first. *)
Definition dispatch_all (actions : list AuthAction) : AuthState :=
  fold_left authReducer actions initialState.

End AuthContext.

(** ** The risk engine (back end) *)

Module Engine.

Import RiskAssessmentPage.

(** Modelled from the spec: the error of the scorer in the engine's error
    taxonomy (back end, missing), with the field at fault. *)
Inductive EngineError : Type :=
| ValidationError (field : string).

(** Errors are threaded through the scorer's steps. *)
Definition bind {A B E : Type} (m : Settled A E) (k : A -> Settled B E) : Settled B E :=
  match m with
  | Fulfilled a => k a
  | Rejected e => Rejected e
  end.

Notation "'let!' x ':=' m 'in' k" := (bind m (fun x => k))
  (at level 10, x name, m at level 100, k at level 200).

(** Modelled from the spec: the ScoreWeightTable of the back end's scoring
    module (back end, missing). The spec fixes its shape, not its numbers:
    a step function of the age, and for every categorical field a lookup
    from label to points. *)
Record ScoreWeightTable : Type := mkTable {
  age_points : Z -> Z;
  label_points : gmap string (gmap string Z)
}.

(** Modelled from the spec: the invariant of the ScoreWeightTable (the
    back-end configuration is missing): every field contributes between 0
    and 5 points, and every label a question offers has an entry. *)
Record table_ok (T : ScoreWeightTable) : Prop := mkTableOk {
  age_points_range : forall a, 18 <= a <= 100 -> 0 <= age_points T a <= 5;
  label_points_range : forall f m l p,
    label_points T !! f = Some m -> m !! l = Some p -> 0 <= p <= 5;
  label_points_total : forall f l,
    In f categorical_fields -> In l (label_set f) ->
    exists m p, label_points T !! f = Some m /\ m !! l = Some p
}.

(** An integer-valued finite number, as an integer (whichever fraction
    represents it). *)
Definition as_integer (n : JsNumber) : option Z :=
  match n with
  | Finite q =>
      if Qeq_bool q (inject_Z (Qfloor q)) then Some (Qfloor q) else None
  | _ => None
  end.

(** Modelled from the spec: the age step of the QuestionnaireScorer (back
    end, missing): the age must be present, an integer and in [18,100];
    its points come from the table's step function. *)
Definition score_age (T : ScoreWeightTable) (answers : JsValue) : Settled Z EngineError :=
  match get_prop answers "age" with
  | VNumber n =>
      match as_integer n with
      | Some a =>
          if (18 <=? a) && (a <=? 100) then Fulfilled (age_points T a)
          else Rejected (ValidationError "age")
      | None => Rejected (ValidationError "age")
      end
  | _ => Rejected (ValidationError "age")
  end.

(** Modelled from the spec: the lookup of one categorical answer by the
    QuestionnaireScorer (back end, missing): a missing field or a label
    without an entry is a ValidationError, never a default. *)
Definition score_label (T : ScoreWeightTable) (answers : JsValue) (field : string)
  : Settled Z EngineError :=
  match get_prop answers field with
  | VString l =>
      match label_points T !! field ≫= (fun m => m !! l) with
      | Some p => Fulfilled p
      | None => Rejected (ValidationError field)
      end
  | _ => Rejected (ValidationError field)
  end.

(** Modelled from the spec: the unweighted sum of the QuestionnaireScorer
    (back end, missing), run over the categorical fields in order. *)
Fixpoint score_labels (T : ScoreWeightTable) (answers : JsValue)
    (fields : list string) (acc : Z) : Settled Z EngineError :=
  match fields with
  | [] => Fulfilled acc
  | f :: rest =>
      let! p := score_label T answers f in
      score_labels T answers rest (acc + p)
  end.

(** Modelled from the spec: the QuestionnaireScorer behind [score] and
    [createRiskProfile] (back end, missing): the unweighted sum of the
    points of the ten fields. *)
Definition score (T : ScoreWeightTable) (answers : JsValue) : Settled Z EngineError :=
  let! a := score_age T answers in
  score_labels T answers categorical_fields a.

(** Modelled from the spec: the invariant of QuestionnaireAnswers (the back
    end's validation is missing): an integer age in [18,100] and, for each
    categorical field, one of the labels its question offers. *)
Definition valid_answers (answers : JsValue) : Prop :=
  (exists n a,
     get_prop answers "age" = VNumber n /\ as_integer n = Some a /\
     18 <= a <= 100) /\
  (forall f, In f categorical_fields ->
     exists l, get_prop answers f = VString l /\ In l (label_set f)).

(** Modelled from the spec: one admissible ScoreWeightTable (the back end's
    own numbers are missing): five age steps, and the labels of each
    question scored by their position, cautious answers first. *)
Definition example_table : ScoreWeightTable :=
  {| age_points := fun a =>
       if a <? 30 then 5 else if a <? 40 then 4 else if a <? 50 then 3
       else if a <? 60 then 2 else 1;
     label_points :=
       list_to_map
         (flat_map (fun q =>
            match input q with
            | select options =>
                [(key q,
                  list_to_map (imap (fun i o => (value o, Z.of_nat (S i))) options))]
            | slider _ _ _ => []
            end) questions) |}.

End Engine.

(** ** The diversification analyzer (back end) *)

Module Diversification.

(** Modelled from the spec: an Allocation, ticker to weight, as the entries
    of the JSON object the client posts. *)
Definition Allocation : Type := list (string * Q).

(** Modelled from the spec: the two recommendation rules the spec names
    for the DiversificationAnalyzer (back end, missing). *)
Inductive Recommendation : Type :=
| ReduceConcentration
| BroadenDiversification.

(** The report, with the fields of [interface DiversificationAnalysis]. *)
Record DiversificationAnalysis : Type := mkAnalysis {
  score : Q;
  breakdown : list (string * Q);
  total_assets : nat;
  max_concentration : Q;
  recommendations : list Recommendation
}.

(** Modelled from the spec: the per-category concentration of the
    DiversificationAnalyzer (back end, missing), one position at a time:
    adds [w] to the entry of [c], or appends a new entry. *)
Fixpoint add_weight (c : string) (w : Q) (acc : list (string * Q)) : list (string * Q) :=
  match acc with
  | [] => [(c, w)]
  | (c', w') :: rest =>
      if String.eqb c c' then (c', (w' + w)%Q) :: rest
      else (c', w') :: add_weight c w rest
  end.

(** The larger of two weights. *)
Definition Qmax (a b : Q) : Q := if Qle_bool a b then b else a.

Section Analyzer.

(** The category of an instrument (its [tipo] in the ETF catalog). *)
Variable category : string -> string.

(** Modelled from the spec: the DiversificationAnalyzer behind
    [analyze_diversification] (back end, missing): the concentration index
    is accumulated over the positions, the score is its complement. *)
Definition analyze_diversification (allocation : Allocation) : DiversificationAnalysis :=
  let concentration :=
    fold_left (fun acc tw => (acc + snd tw * snd tw)%Q) allocation 0%Q in
  let largest := fold_left (fun acc tw => Qmax acc (snd tw)) allocation 0%Q in
  let positions :=
    length (filter (fun tw => negb (Qeq_bool (snd tw) 0)) allocation) in
  {| score := (1 - concentration)%Q;
     breakdown :=
       fold_left (fun acc tw => add_weight (category (fst tw)) (snd tw) acc) allocation [];
     total_assets := length allocation;
     max_concentration := largest;
     recommendations :=
       (if Qle_bool largest 0.5 then [] else [ReduceConcentration]) ++
       (if (positions <? 3)%nat then [BroadenDiversification] else []) |}.

End Analyzer.

(** Modelled from the spec: the sum in the spec's formula 1 − Σ(weight_i²),
    the squares of the weights added up. *)
Definition sum_of_squares (allocation : Allocation) : Q :=
  fold_right Qplus 0%Q (map (fun tw => (snd tw * snd tw)%Q) allocation).

End Diversification.

(** ** Token storage ([tokenManager] in [services/api.ts]) *)

Module TokenManager.

Definition TOKEN_KEY : string := "impulso_access_token".
Definition REFRESH_TOKEN_KEY : string := "impulso_refresh_token".

(** [localStorage]: string keys to string values; [getItem] of an absent
    key is [null]. *)
Definition getToken (ls : gmap string string) : option string :=
  ls !! TOKEN_KEY.

Definition setToken (token : string) (ls : gmap string string) : gmap string string :=
  <[TOKEN_KEY := token]> ls.

Definition removeToken (ls : gmap string string) : gmap string string :=
  delete TOKEN_KEY ls.

Definition getRefreshToken (ls : gmap string string) : option string :=
  ls !! REFRESH_TOKEN_KEY.

Definition setRefreshToken (token : string) (ls : gmap string string) : gmap string string :=
  <[REFRESH_TOKEN_KEY := token]> ls.

Definition removeRefreshToken (ls : gmap string string) : gmap string string :=
  delete REFRESH_TOKEN_KEY ls.

Definition clearTokens (ls : gmap string string) : gmap string string :=
  delete REFRESH_TOKEN_KEY (delete TOKEN_KEY ls).

(** [if (token)] on a [string | null]: a stored empty string is falsy. *)
Definition present (token : option string) : bool :=
  match token with
  | Some t => truthy (VString t)
  | None => false
  end.

End TokenManager.

(** ** The axios instance and its interceptors ([services/api.ts]) *)

Module Http.

Import TokenManager.

(** The browser as the client sees it: the storage, the address the
    window was last sent to, and how many requests have left so far. *)
Record Browser : Type := mkBrowser {
  localStorage : gmap string string;
  location_href : string;
  requests_sent : nat
}.

(** The request as it travels through the interceptors: the caller's
    config, the headers, and the [_retry] mark of the response interceptor
    (absent, hence falsy, on a fresh request). *)
Record InternalConfig : Type := mkConfig {
  request : Api.RequestConfig;
  headers : gmap string string;
  _retry : bool
}.

(** What the adapter rejects with: an axios error with its message and,
    when the server answered, its response. *)
Record WireError : Type := mkWireError {
  wire_message : string;
  wire_response : option Api.AxiosResponse
}.

(** The server: what the n-th request sent gets for an answer. *)
Definition Network : Type :=
  nat -> InternalConfig -> Settled Api.AxiosResponse WireError.

Definition as_thrown (e : WireError) : Api.Thrown :=
  Api.AxiosError (wire_message e) (wire_response e).

(** A [TypeError], as thrown by reading a property of [undefined] or [null]. *)
Definition TypeError : Api.Thrown :=
  Api.OtherError (VObject [("name", VString "TypeError")]).

(** The headers [axios.create] was given. *)
Definition default_headers : gmap string string :=
  {[ "Content-Type" := "application/json" ]}.

(** [apiClient.request({ method, url, data })] starts from this config. *)
Definition initial_config (r : Api.RequestConfig) : InternalConfig :=
  mkConfig r default_headers false.

Definition set_authorization (value : string) (config : InternalConfig) : InternalConfig :=
  mkConfig (request config) (<["Authorization" := value]> (headers config)) (_retry config).

(** The request interceptor. *)
Definition request_interceptor (ls : gmap string string) (config : InternalConfig)
  : InternalConfig :=
  match getToken ls with
  | Some token =>
      if truthy (VString token)
      then set_authorization ("Bearer " +:+ token) config
      else config
  | None => config
  end.

(** [error.response?.status === 401]. *)
Definition is_401 (e : WireError) : bool :=
  match wire_response e with
  | Some r => Api.status r =? 401
  | None => false
  end.

(** [const { access_token } = response.data.data]: reading [data] of an
    [undefined] or [null] body throws, and so does destructuring an
    [undefined] or [null] payload. *)
Definition read_access_token (response : Api.AxiosResponse) : Settled JsValue Api.Thrown :=
  match Api.body response with
  | VUndefined | VNull => Rejected TypeError
  | b =>
      match get_prop b "data" with
      | VUndefined | VNull => Rejected TypeError
      | payload => Fulfilled (get_prop payload "access_token")
      end
  end.

(** [tokenManager.clearTokens(); window.location.href = '/login']. *)
Definition clear_and_redirect (b : Browser) : Browser :=
  mkBrowser (clearTokens (localStorage b)) "/login" (requests_sent b).

Definition sent (b : Browser) : Browser :=
  mkBrowser (localStorage b) (location_href b) (S (requests_sent b)).

Definition store_token (token : string) (b : Browser) : Browser :=
  mkBrowser (setToken token (localStorage b)) (location_href b) (requests_sent b).

Section Client.

(** [import.meta.env.VITE_API_BASE_URL || 'http://localhost:5000']. *)
Variable API_BASE_URL : string.

(** Number::toString, which template literals and [setItem] apply to a
    number. *)
Variable number_to_string : JsNumber -> string.

Variable net : Network.

(** ToString, as applied by a template literal and by [localStorage.setItem]. *)
Definition ToString (v : JsValue) : string :=
  match v with
  | VUndefined => "undefined"
  | VNull => "null"
  | VBool true => "true"
  | VBool false => "false"
  | VNumber n => number_to_string n
  | VString s => s
  | VObject _ => "[object Object]"
  end.

(** The refresh call, made with the global axios (no interceptors). *)
Definition refresh_config (refreshToken : string) : InternalConfig :=
  mkConfig (Api.mkRequest Api.POST (API_BASE_URL +:+ "/api/auth/refresh") (VObject []))
           {[ "Authorization" := "Bearer " +:+ refreshToken ]} false.

(** The ways the refresh of an expired session fails: no usable refresh
    token, a rejected refresh call, or an answer without a readable
    payload. *)
Definition refresh_fails_in (b : Browser) : Prop :=
  present (getRefreshToken (localStorage b)) = false \/
  exists refreshToken,
    getRefreshToken (localStorage b) = Some refreshToken /\
    match net (S (requests_sent b)) (refresh_config refreshToken) with
    | Fulfilled response =>
        exists thrown, read_access_token response = Rejected thrown
    | Rejected _ => True
    end.

(** The rejection handler of the response interceptor; [resend] is
    [apiClient] itself. The promise [apiClient(originalRequest)] is
    returned, not awaited, inside the [try]: its rejection is not caught. *)
Definition on_rejected
    (resend : InternalConfig -> Browser -> option (Settled Api.AxiosResponse Api.Thrown * Browser))
    (error : WireError) (originalRequest : InternalConfig) (b : Browser)
  : option (Settled Api.AxiosResponse Api.Thrown * Browser) :=
  if is_401 error && negb (_retry originalRequest) then
    let originalRequest :=
      mkConfig (request originalRequest) (headers originalRequest) true in
    match getRefreshToken (localStorage b) with
    | Some refreshToken =>
        if truthy (VString refreshToken) then
          match net (requests_sent b) (refresh_config refreshToken) with
          | Fulfilled response =>
              match read_access_token response with
              | Fulfilled access_token =>
                  let b := store_token (ToString access_token) (sent b) in
                  resend (set_authorization ("Bearer " +:+ ToString access_token)
                                            originalRequest) b
              | Rejected refreshError =>
                  Some (Rejected refreshError, clear_and_redirect (sent b))
              end
          | Rejected refreshError =>
              Some (Rejected (as_thrown refreshError), clear_and_redirect (sent b))
          end
        else Some (Rejected (as_thrown error), clear_and_redirect b)
    | None => Some (Rejected (as_thrown error), clear_and_redirect b)
    end
  else Some (Rejected (as_thrown error), b).

(** [apiClient(config)]: the request interceptor, the exchange with the
    server, the response interceptor. The fuel bounds the depth of the
    resends. *)
Fixpoint apiClient (fuel : nat) (config : InternalConfig) (b : Browser)
  : option (Settled Api.AxiosResponse Api.Thrown * Browser) :=
  match fuel with
  | O => None
  | S fuel' =>
      let config := request_interceptor (localStorage b) config in
      match net (requests_sent b) config with
      | Fulfilled response => Some (Fulfilled response, sent b)
      | Rejected error => on_rejected (apiClient fuel') error config (sent b)
      end
  end.

(** [apiClient.request(config)] run to its end: two rounds always suffice
    (see [apiClient_two_rounds]). *)
Definition apiClient_request (r : Api.RequestConfig) (b : Browser)
  : Settled Api.AxiosResponse Api.Thrown * Browser :=
  default (Rejected TypeError, b) (apiClient 2 (initial_config r) b).

(** [apiRequest] over this client, with what it does to the browser. *)
Definition apiRequest (m : Api.Method) (endpoint : string) (payload : JsValue) (b : Browser)
  : Settled JsValue Api.Thrown * Browser :=
  (Api.apiRequest (fun r => fst (apiClient_request r b)) m endpoint payload,
   snd (apiClient_request (Api.mkRequest m endpoint payload) b)).

End Client.

End Http.

(** ** The authentication provider ([AuthProvider] in [context/AuthContext.tsx]) *)

Module AuthProvider.

Import TokenManager.

(** [interface ApiResponse<T>]. *)
Record ApiResponse (T : Type) : Type := mkApiResponse {
  success : bool;
  data : option T;
  error : option string;
  message : option string;
  count : option Z;
  validation_errors : option (list string)
}.
Arguments mkApiResponse {T}.
Arguments success {T}.
Arguments data {T}.
Arguments error {T}.

(** The payload of [api.auth.login] and [api.auth.register]. Its [user] is
    declared [any] and only cast with [as User]: the user object the
    answer carries, or nothing ([undefined]) when it carries none. *)
Record Credentials : Type := mkCredentials {
  user : option User;
  access_token : string;
  refresh_token : string
}.

(** The argument of [updateProfile]. *)
Record ProfileData : Type := mkProfileData {
  first_name : option string;
  last_name : option string
}.

(** The provider's world: the reducer state and the browser. *)
Record App : Type := mkApp {
  state : AuthContext.AuthState;
  browser : Http.Browser
}.

(** An awaited API call: it settles, and may have changed the browser on
    the way (the interceptors clear tokens and redirect). *)
Definition Call (T : Type) : Type :=
  Http.Browser -> Settled (ApiResponse T) Api.Thrown * Http.Browser.

Definition dispatch (action : AuthContext.AuthAction) (app : App) : App :=
  mkApp (AuthContext.authReducer (state app) action) (browser app).

Definition with_browser (b : Http.Browser) (app : App) : App :=
  mkApp (state app) b.

(** [dispatch({ type: 'AUTH_SUCCESS', payload: user as User })]: the cast
    checks nothing. The reducer's [AUTH_SUCCESS] case stores the payload
    it is given, a user or [undefined], and sets the three flags. *)
Definition dispatch_success (payload : option User) (app : App) : App :=
  match payload with
  | Some u => dispatch (AuthContext.AUTH_SUCCESS u) app
  | None => mkApp (AuthContext.mkState None true false None) (browser app)
  end.

Definition on_storage (f : gmap string string -> gmap string string) (app : App) : App :=
  with_browser
    (Http.mkBrowser (f (Http.localStorage (browser app)))
                    (Http.location_href (browser app))
                    (Http.requests_sent (browser app)))
    app.

(** [response.success && response.data] of a settled call: the payload the
    success branch goes on with. *)
Definition succeeded {T : Type}
    (r : Settled (ApiResponse T) Api.Thrown * Http.Browser) : option T :=
  match fst r with
  | Fulfilled response => if success response then data response else None
  | Rejected _ => None
  end.

(** The state after [AUTH_ERROR] or [AUTH_LOGOUT]. *)
Definition signed_out_state (e : option string) : AuthContext.AuthState :=
  AuthContext.mkState None false false e.


(** [response.error || fallback]. *)
Definition error_or (e : option string) (fallback : string) : string :=
  match e with
  | Some msg => str_or msg fallback
  | None => fallback
  end.

Section Provider.

Variable api_login : string -> string -> Call Credentials.
Variable api_register :
  string -> string -> option string -> option string -> Call Credentials.
Variable api_logout : Call JsValue.
Variable api_getProfile : Call User.
Variable api_updateProfile : ProfileData -> Call PartialUser.
Variable api_changePassword : string -> string -> Call JsValue.

(** [checkAuth]. *)
Definition checkAuth (app : App) : App :=
  if negb (present (getToken (Http.localStorage (browser app)))) then
    dispatch (AuthContext.AUTH_ERROR "No token found") app
  else
    let app := dispatch AuthContext.AUTH_START app in
    let (outcome, b) := api_getProfile (browser app) in
    let app := with_browser b app in
    match outcome with
    | Fulfilled response =>
        match success response, data response with
        | true, Some profile => dispatch (AuthContext.AUTH_SUCCESS profile) app
        | _, _ =>
            dispatch (AuthContext.AUTH_ERROR
                        (error_or (error response) "Authentication failed"))
                     (on_storage clearTokens app)
        end
    | Rejected _ =>
        dispatch (AuthContext.AUTH_ERROR "Authentication check failed")
                 (on_storage clearTokens app)
    end.

(** [login]. *)
Definition login (email password : string) (app : App) : bool * App :=
  let app := dispatch AuthContext.AUTH_START app in
  let (outcome, b) := api_login email password (browser app) in
  let app := with_browser b app in
  match outcome with
  | Fulfilled response =>
      match success response, data response with
      | true, Some credentials =>
          let app := on_storage (setToken (access_token credentials)) app in
          let app := on_storage (setRefreshToken (refresh_token credentials)) app in
          (true, dispatch_success (user credentials) app)
      | _, _ =>
          (false, dispatch (AuthContext.AUTH_ERROR
                              (error_or (error response) "Login failed")) app)
      end
  | Rejected _ => (false, dispatch (AuthContext.AUTH_ERROR "Login failed") app)
  end.

(** [register]. *)
Definition register (email password : string) (firstName lastName : option string)
    (app : App) : bool * App :=
  let app := dispatch AuthContext.AUTH_START app in
  let (outcome, b) := api_register email password firstName lastName (browser app) in
  let app := with_browser b app in
  match outcome with
  | Fulfilled response =>
      match success response, data response with
      | true, Some credentials =>
          let app := on_storage (setToken (access_token credentials)) app in
          let app := on_storage (setRefreshToken (refresh_token credentials)) app in
          (true, dispatch_success (user credentials) app)
      | _, _ =>
          (false, dispatch (AuthContext.AUTH_ERROR
                              (error_or (error response) "Registration failed")) app)
      end
  | Rejected _ => (false, dispatch (AuthContext.AUTH_ERROR "Registration failed") app)
  end.

(** [logout]: the API error is ignored, the [finally] always runs. *)
Definition logout (app : App) : App :=
  let (_, b) := api_logout (browser app) in
  dispatch AuthContext.AUTH_LOGOUT (on_storage clearTokens (with_browser b app)).

(** [updateProfile]. *)
Definition updateProfile (d : ProfileData) (app : App) : bool * App :=
  let (outcome, b) := api_updateProfile d (browser app) in
  let app := with_browser b app in
  match outcome with
  | Fulfilled response =>
      match success response, data response with
      | true, Some patch => (true, dispatch (AuthContext.UPDATE_USER patch) app)
      | _, _ =>
          (false, dispatch (AuthContext.AUTH_ERROR
                              (error_or (error response) "Profile update failed")) app)
      end
  | Rejected _ =>
      (false, dispatch (AuthContext.AUTH_ERROR "Profile update failed") app)
  end.

(** [changePassword]. *)
Definition changePassword (currentPassword newPassword : string) (app : App) : bool * App :=
  let (outcome, b) := api_changePassword currentPassword newPassword (browser app) in
  let app := with_browser b app in
  match outcome with
  | Fulfilled response =>
      if success response then (true, app)
      else (false, dispatch (AuthContext.AUTH_ERROR
                               (error_or (error response) "Password change failed")) app)
  | Rejected _ =>
      (false, dispatch (AuthContext.AUTH_ERROR "Password change failed") app)
  end.

(** [clearError]. *)
Definition clearError (app : App) : App := dispatch AuthContext.CLEAR_ERROR app.

(** What a component can ask of the provider. *)
Inductive Operation : Type :=
| CheckAuth
| Login (email password : string)
| Register (email password : string) (firstName lastName : option string)
| Logout
| UpdateProfile (d : ProfileData)
| ChangePassword (currentPassword newPassword : string)
| ClearError.

Definition perform (op : Operation) (app : App) : App :=
  match op with
  | CheckAuth => checkAuth app
  | Login email password => snd (login email password app)
  | Register email password f l => snd (register email password f l app)
  | Logout => logout app
  | UpdateProfile d => snd (updateProfile d app)
  | ChangePassword c n => snd (changePassword c n app)
  | ClearError => clearError app
  end.

(** The provider as mounted: the initial state, then [checkAuth] from the
    effect, then the operations the components ask for. *)
Definition mounted (b : Http.Browser) (ops : list Operation) : App :=
  fold_left (fun app op => perform op app) ops
            (checkAuth (mkApp AuthContext.initialState b)).

End Provider.

End AuthProvider.

(** ** The routes ([App.tsx]) *)

Module AppRoutes.

Inductive Routed : Type :=
| Spinner            (* "Cargando..." *)
| NavigateToLogin    (* <Navigate to="/login" replace /> *)
| Children.

(** [ProtectedRoute]. *)
Definition ProtectedRoute (state : AuthContext.AuthState) : Routed :=
  if AuthContext.isLoading state then Spinner
  else if negb (AuthContext.isAuthenticated state) then NavigateToLogin
  else Children.

(** [state.user?.first_name || state.user?.email]: nothing ([undefined])
    without a user. *)
Definition greeting (state : AuthContext.AuthState) : option string :=
  match AuthContext.user state with
  | Some u =>
      match Types.first_name u with
      | Some name => if truthy (VString name) then Some name else Some (Types.email u)
      | None => Some (Types.email u)
      end
  | None => None
  end.

(** [state.user?.has_risk_profile] and [state.user?.has_portfolio], as
    truth values ([undefined] is falsy). *)
Definition has_risk_profile (state : AuthContext.AuthState) : bool :=
  match AuthContext.user state with
  | Some u => Types.has_risk_profile u
  | None => false
  end.

Definition has_portfolio (state : AuthContext.AuthState) : bool :=
  match AuthContext.user state with
  | Some u => Types.has_portfolio u
  | None => false
  end.

(** The three panels of [DashboardPage], each with its condition. *)
Inductive Panel : Type :=
| StartAnalysis      (* "Empezar tu Análisis de Inversión" *)
| ProfileCompleted   (* "Perfil de Riesgo Completado" *)
| AllSet.            (* "Todo Listo" *)

Definition panel_shown (p : Panel) (state : AuthContext.AuthState) : bool :=
  match p with
  | StartAnalysis => negb (has_risk_profile state)
  | ProfileCompleted => has_risk_profile state && negb (has_portfolio state)
  | AllSet => has_risk_profile state && has_portfolio state
  end.

(** The panels [DashboardPage] renders, in order. *)
Definition DashboardPage (state : AuthContext.AuthState) : list Panel :=
  List.filter (fun p => panel_shown p state) [StartAnalysis; ProfileCompleted; AllSet].

End AppRoutes.

(** ** The questionnaire as a component ([RiskAssessmentPage]) *)

Module RiskAssessmentFlow.

Import RiskAssessmentPage.

(** The component's [useState] cells. *)
Record PageState : Type := mkPage {
  currentStep : Z;
  isSubmitting : bool;
  riskResult : JsValue
}.

Definition initialPage : PageState := mkPage 0 false VNull.

(** [questions.length]. *)
Definition questions_length : Z := Z.of_nat (length questions).

(** [nextStep]. *)
Definition nextStep (st : PageState) : PageState :=
  if currentStep st <? questions_length - 1
  then mkPage (currentStep st + 1) (isSubmitting st) (riskResult st)
  else st.

(** [prevStep]. *)
Definition prevStep (st : PageState) : PageState :=
  if currentStep st >? 0
  then mkPage (currentStep st - 1) (isSubmitting st) (riskResult st)
  else st.

(** [questions[currentStep]]: [undefined] outside the array. *)
Definition currentQuestion (st : PageState) : option Question :=
  if currentStep st <? 0 then None
  else nth_error questions (Z.to_nat (currentStep st)).

(** [isLastStep]. *)
Definition isLastStep (st : PageState) : bool :=
  currentStep st =? questions_length - 1.

(** The width of the progress bar, in percent. *)
Definition progress_pct (st : PageState) : Q :=
  (inject_Z (currentStep st + 1) / inject_Z questions_length * 100)%Q.

Inductive Click : Type := Siguiente | Anterior.

Definition click (st : PageState) (c : Click) : PageState :=
  match c with
  | Siguiente => nextStep st
  | Anterior => prevStep st
  end.

(** The page after a run of clicks on the two navigation buttons. *)
Definition after_clicks (clicks : list Click) : PageState :=
  fold_left click clicks initialPage.

(** How many of the clicks were on "Siguiente". *)
Definition forward_clicks (clicks : list Click) : Z :=
  Z.of_nat (length (List.filter
                      (fun c => match c with Siguiente => true | Anterior => false end)
                      clicks)).

(** What the inputs of a question can put into the form: a range input
    gives the integers from [min] to [max], a select the values of its
    options. *)
Definition offered (q : Question) (v : JsValue) : Prop :=
  match input q with
  | slider lo hi _ => exists a, v = VNumber (of_Z a) /\ lo <= a <= hi
  | select options => exists o, In o options /\ v = VString (value o)
  end.

Section Submit.

Variable request : Api.RequestConfig -> Settled Api.AxiosResponse Api.Thrown.

(** [onSubmit]: reading [response.success] of an [undefined] or [null]
    response throws into the [catch]; the [finally] always runs. *)
Definition onSubmit (data : JsValue) (st : PageState) : PageState :=
  let st := mkPage (currentStep st) true (riskResult st) in
  let st :=
    match Api.createRiskProfile request data with
    | Fulfilled response =>
        match response with
        | VUndefined | VNull => st
        | _ =>
            if truthy (get_prop response "success") && truthy (get_prop response "data")
            then mkPage (currentStep st) (isSubmitting st) (get_prop response "data")
            else st
        end
    | Rejected _ => st
    end in
  mkPage (currentStep st) false (riskResult st).

End Submit.

(** [if (riskResult)]: the result view replaces the form. *)
Definition shows_result (st : PageState) : bool := truthy (riskResult st).

End RiskAssessmentFlow.

(** ** Concrete inputs *)

Module Samples.

Import RiskAssessmentPage.

(** The demo account of the set-up guide. *)
Definition demo_user : User :=
  mkUser 1 "demo@impulso.com" (Some "Demo") None "Demo" true
         "2024-01-01" "2024-01-01" false false.

(** A questionnaire filled in from the options offered. *)
Definition sample_answers : QuestionnaireAnswers :=
  mkAnswers (of_Z 30) "5-10 años" "10-20 %" "Intermedio" "20 %" "No hago nada"
            "Media" "Crecimiento balanceado" "Me preocupa moderadamente" "Alta".

Definition sample_submission : JsValue := answers_object sample_answers.

(** The same questionnaire with a horizon no option offers. *)
Definition off_list_submission : JsValue :=
  answers_object
    (mkAnswers (of_Z 30) "cuando sea" "10-20 %" "Intermedio" "20 %" "No hago nada"
               "Media" "Crecimiento balanceado" "Me preocupa moderadamente" "Alta").

(** The same questionnaire with an age below the minimum. *)
Definition underage_submission : JsValue :=
  answers_object
    (mkAnswers (of_Z 17) "5-10 años" "10-20 %" "Intermedio" "20 %" "No hago nada"
               "Media" "Crecimiento balanceado" "Me preocupa moderadamente" "Alta").

(** A submission that lacks the [goal] field. *)
Definition no_goal_submission : JsValue :=
  VObject [("age", VNumber (of_Z 30)); ("horizon", VString "5-10 años");
           ("income", VString "10-20 %"); ("knowledge", VString "Intermedio");
           ("max_drop", VString "20 %"); ("reaction", VString "No hago nada");
           ("liquidity", VString "Media");
           ("inflation", VString "Me preocupa moderadamente");
           ("digital", VString "Alta")].

(** A client behind a proxy that answers 502 with a plain-text body. *)
Definition bad_gateway_client (_ : Api.RequestConfig)
  : Settled Api.AxiosResponse Api.Thrown :=
  Rejected (Api.AxiosError "Request failed with status code 502"
              (Some (Api.mkResponse 502 (VString "Bad Gateway")))).

(** A client whose server answers 200 with the JSON body [null]. *)
Definition null_body_client (_ : Api.RequestConfig)
  : Settled Api.AxiosResponse Api.Thrown :=
  Fulfilled (Api.mkResponse 200 VNull).

(** A client whose every request fails before a response arrives. *)
Definition offline_client (_ : Api.RequestConfig)
  : Settled Api.AxiosResponse Api.Thrown :=
  Rejected (Api.AxiosError "" None).

(** A browser with a session: both tokens stored, the dashboard open. *)
Definition session_browser : Http.Browser :=
  Http.mkBrowser
    (TokenManager.setRefreshToken "refresh-1" (TokenManager.setToken "access-1" ∅))
    "/dashboard" 0.

(** A browser without tokens. *)
Definition fresh_browser : Http.Browser := Http.mkBrowser ∅ "/login" 0.

(** The sample servers below send string tokens only, so no run converts a
    number to a string: the printer handed to the client is a blank, and
    stands for no part of the conversion of numbers
    ([sample_runs_print_no_number]). *)
Definition blank_printer (_ : JsNumber) : string := EmptyString.

Definition answer (status : Z) (body : JsValue) : Api.AxiosResponse :=
  Api.mkResponse status body.

Definition status_error (status : Z) : Http.WireError :=
  Http.mkWireError ("Request failed with status code " +:+ pretty status)
    (Some (answer status (Api.failure "server"))).

(** A server that fails every request with status 500. *)
Definition failing_server : Http.Network := fun _ _ => Rejected (status_error 500).

(** A server that answers every request with 401. *)
Definition locked_server : Http.Network := fun _ _ => Rejected (status_error 401).

(** A server whose session has expired: 401 first, then a new access token
    for the refresh call, then the answer to the resent request. *)
Definition expired_server : Http.Network :=
  fun n _ =>
    match n with
    | O => Rejected (status_error 401)
    | S O =>
        Fulfilled (answer 200
          (VObject [("success", VBool true);
                    ("data", VObject [("access_token", VString "access-2")])]))
    | _ => Fulfilled (answer 200 (VObject [("success", VBool true)]))
    end.

Definition profile_request : Api.RequestConfig :=
  Api.mkRequest Api.GET "/api/auth/profile" VUndefined.

(** An API call that is rejected before any answer. *)
Definition api_off {T : Type} : AuthProvider.Call T :=
  fun b => (Rejected (Api.AxiosError "Network Error" None), b).

Definition api_sign_up_off (_ _ : string) (_ _ : option string)
  : AuthProvider.Call AuthProvider.Credentials := api_off.

Definition api_update_off (_ : AuthProvider.ProfileData)
  : AuthProvider.Call PartialUser := api_off.

Definition api_password_off (_ _ : string) : AuthProvider.Call JsValue := api_off.


(** A login that the server accepts with the two tokens and no user. *)
Definition api_login_no_user (_ _ : string)
  : AuthProvider.Call AuthProvider.Credentials :=
  fun b =>
    (Fulfilled (AuthProvider.mkApiResponse true
                  (Some (AuthProvider.mkCredentials None "access-1" "refresh-1"))
                  None None None None), b).

(** The demo user signed in, with the session's tokens stored. *)
Definition signed_in_app : AuthProvider.App :=
  AuthProvider.mkApp (AuthContext.mkState (Some demo_user) true false None)
    session_browser.

(** The sample questionnaire with a field the schema does not know. *)
Definition padded_submission : JsValue :=
  match sample_submission with
  | VObject props => VObject (("referrer", VString "newsletter") :: props)
  | v => v
  end.

End Samples.

(** * Properties *)

(** ** The authentication state *)

Section AuthFacts.

Import AuthContext Samples.

Lemma session_has_user_initial : session_has_user initialState.
Proof. unfold session_has_user; simpl; discriminate. Qed.

Lemma session_has_user_step s a :
  session_has_user s -> session_has_user (authReducer s a).
Proof.
  unfold session_has_user; intros IH.
  destruct a; simpl; try exact IH; try discriminate.
  intros Hauth. specialize (IH Hauth).
  destruct (user s) as [u|]; [discriminate | contradiction].
Qed.

Lemma reachable_session_has_user s : reachable s -> session_has_user s.
Proof.
  induction 1 as [|s a _ IH].
  - apply session_has_user_initial.
  - apply session_has_user_step, IH.
Qed.

Lemma fold_reachable actions : forall s,
  reachable s -> reachable (fold_left authReducer actions s).
Proof.
  induction actions as [|a actions IH]; intros s Hs; simpl.
  - exact Hs.
  - apply IH. constructor. exact Hs.
Qed.

Lemma dispatch_all_reachable actions : reachable (dispatch_all actions).
Proof. apply fold_reachable. constructor. Qed.

(** C10: in every state reachable from [initialState] through
    [authReducer] (equivalently, after any sequence of dispatched actions),
    [isAuthenticated = true] implies [user ≠ null]; and [AUTH_ERROR] and
    [AUTH_LOGOUT] always give [user = null] and [isAuthenticated = false]. *)
Theorem auth_session_invariant :
  (forall s, reachable s -> isAuthenticated s = true -> user s <> None) /\
  (forall actions,
     isAuthenticated (dispatch_all actions) = true ->
     user (dispatch_all actions) <> None) /\
  (forall s payload,
     user (authReducer s (AUTH_ERROR payload)) = None /\
     isAuthenticated (authReducer s (AUTH_ERROR payload)) = false) /\
  (forall s,
     user (authReducer s AUTH_LOGOUT) = None /\
     isAuthenticated (authReducer s AUTH_LOGOUT) = false).
Proof.
  split; [|split; [|split]].
  - intros s Hs. apply reachable_session_has_user, Hs.
  - intros actions. apply reachable_session_has_user, dispatch_all_reachable.
  - intros s payload. split; reflexivity.
  - intros s. split; reflexivity.
Qed.

(** After a login and a profile update the session holds the user. *)
Lemma auth_session_invariant_witness :
  isAuthenticated
    (dispatch_all [AUTH_START; AUTH_SUCCESS demo_user;
                   UPDATE_USER (mkPartialUser None None (Some (Some "Ana")) None
                                  None None None None None None)]) = true /\
  user
    (dispatch_all [AUTH_START; AUTH_SUCCESS demo_user;
                   UPDATE_USER (mkPartialUser None None (Some (Some "Ana")) None
                                  None None None None None None)]) <> None.
Proof.
  split; [reflexivity |].
  apply (proj1 (proj2 auth_session_invariant)). reflexivity.
Defined.

End AuthFacts.

(** ** The constant tables *)

Section TableFacts.

Lemma lookup_bucket_key k info :
  RISK_BUCKETS !! k = Some info ->
  k = "0" \/ k = "1" \/ k = "2" \/ k = "3" \/ k = "4".
Proof.
  unfold RISK_BUCKETS. intros H.
  repeat (apply lookup_insert_Some in H as [[<- _]|[_ H]]; [tauto|]).
  rewrite lookup_empty in H. discriminate.
Qed.

Lemma property_key_inj z1 z2 : property_key z1 = property_key z2 -> z1 = z2.
Proof. unfold property_key. apply (inj pretty). Qed.

(** A number indexes a bucket exactly when it is one of 0..4. *)
Lemma bucket_defined_iff z :
  is_Some (RISK_BUCKETS !! property_key z) <-> 0 <= z <= 4.
Proof.
  split.
  - intros [info H]. apply lookup_bucket_key in H.
    destruct H as [H|[H|[H|[H|H]]]].
    + apply (property_key_inj z 0) in H. lia.
    + apply (property_key_inj z 1) in H. lia.
    + apply (property_key_inj z 2) in H. lia.
    + apply (property_key_inj z 3) in H. lia.
    + apply (property_key_inj z 4) in H. lia.
  - intros Hz.
    assert (z = 0 \/ z = 1 \/ z = 2 \/ z = 3 \/ z = 4) as Hc by lia.
    destruct Hc as [->|[->|[->|[->| ->]]]]; vm_compute; eauto.
Qed.

(** C5: [RISK_BUCKETS] has exactly five entries, keyed by the integers 0
    to 4 and by nothing else; each key carries one label and one
    description, from capital preservation at 0 ("Conservador") to maximum
    growth with high volatility at 4 ("Agresivo"). *)
Theorem risk_buckets_five_ordered :
  size RISK_BUCKETS = 5%nat /\
  dom RISK_BUCKETS = list_to_set (property_key <$> [0; 1; 2; 3; 4]) /\
  (forall b : RiskBucket, is_Some (RISK_BUCKETS !! property_key (RiskBucket_value b))) /\
  (forall z, is_Some (RISK_BUCKETS !! property_key z) <-> 0 <= z <= 4) /\
  (fun i => (label i, description i)) <$> RISK_BUCKETS !! property_key 0
    = Some ("Conservador", "Prioriza preservación del capital") /\
  (fun i => (label i, description i)) <$> RISK_BUCKETS !! property_key 1
    = Some ("Moderado", "Balance entre seguridad y crecimiento") /\
  (fun i => (label i, description i)) <$> RISK_BUCKETS !! property_key 2
    = Some ("Balanceado", "Distribución equilibrada") /\
  (fun i => (label i, description i)) <$> RISK_BUCKETS !! property_key 3
    = Some ("Crecimiento", "Enfocado en crecimiento largo plazo") /\
  (fun i => (label i, description i)) <$> RISK_BUCKETS !! property_key 4
    = Some ("Agresivo", "Máximo crecimiento, alta volatilidad").
Proof.
  split; [vm_compute; reflexivity |].
  split; [vm_compute; reflexivity |].
  split; [intros []; vm_compute; eauto |].
  split; [exact bucket_defined_iff |].
  repeat split; vm_compute; reflexivity.
Qed.






End TableFacts.

(** ** The result view *)

Section ResultFacts.

Import RiskAssessmentPage.



Example render_balanced :
  render_result (mkResult 28 2 "Balanceado") =
  Fulfilled (mkView "#FF980020" "#FF9800" "Balanceado" "Distribución equilibrada"
                    "#FF9800" "• Nivel de riesgo: Balanceado").
Proof. vm_compute. reflexivity. Qed.

Example render_negative_bucket :
  render_result (mkResult 12 (-1) "Conservador") = Rejected (TypeError "color").
Proof. vm_compute. reflexivity. Qed.

End ResultFacts.

(** ** The questionnaire schema *)

Section SchemaFacts.

Import RiskAssessmentPage Samples.

Lemma of_Z_lt_18 q : num_lt (Finite q) (of_Z 18) = false <-> (18 <= q)%Q.
Proof.
  unfold num_lt, of_Z. rewrite negb_false_iff. apply Qle_bool_iff.
Qed.

Lemma of_Z_gt_100 q : num_gt (Finite q) (of_Z 100) = false <-> (q <= 100)%Q.
Proof.
  unfold num_gt, num_lt, of_Z. rewrite negb_false_iff. apply Qle_bool_iff.
Qed.

Lemma number_check_min_nil p n v msg :
  number_check p n (check_min v msg) = [] <-> num_lt n (of_Z v) = false.
Proof.
  unfold number_check. destruct (num_lt n (of_Z v)); split; congruence.
Qed.

Lemma number_check_max_nil p n v msg :
  number_check p n (check_max v msg) = [] <-> num_gt n (of_Z v) = false.
Proof.
  unfold number_check. destruct (num_gt n (of_Z v)); split; congruence.
Qed.

Lemma parse_number_finite p q c1 c2 :
  parse_field (z_number [c1; c2]) p (VNumber (Finite q)) =
  (number_check p (Finite q) c1 ++ number_check p (Finite q) c2)%list.
Proof. cbn [parse_field flat_map]. rewrite app_nil_r. reflexivity. Qed.

(** The age field raises no issue exactly on a number within the bounds. *)
Lemma age_field_ok p v :
  parse_field (z_number [check_min 18 "Debe ser mayor de 18 años";
                         check_max 100 "Edad máxima 100 años"]) p v = [] <->
  exists n, v = VNumber n /\ in_age_range n.
Proof.
  split.
  - destruct v as [| | |n| |]; try discriminate.
    destruct n as [q| | |]; try discriminate.
    rewrite parse_number_finite. intros H.
    apply app_eq_nil in H as [H1 H2].
    apply number_check_min_nil in H1. apply number_check_max_nil in H2.
    exists (Finite q). split; [reflexivity|].
    split; [apply of_Z_lt_18, H1 | apply of_Z_gt_100, H2].
  - intros (n & -> & Hn). destruct n as [q| | |]; simpl in Hn; try contradiction.
    destruct Hn as [H1 H2]. apply of_Z_lt_18 in H1. apply of_Z_gt_100 in H2.
    rewrite parse_number_finite.
    rewrite (proj2 (number_check_min_nil p _ _ _) H1).
    rewrite (proj2 (number_check_max_nil p _ _ _) H2). reflexivity.
Qed.

Lemma string_check_min1_nil p s msg :
  string_check p s (check_min 1 msg) = [] <-> s <> "".
Proof.
  unfold string_check. destruct s as [|c s].
  - simpl. split; [discriminate | congruence].
  - destruct (Z.ltb_spec (Z.of_nat (String.length (String c s))) 1) as [H|H].
    + simpl in H. lia.
    + split; [discriminate | reflexivity].
Qed.

(** A categorical field raises no issue exactly on a non-empty string. *)
Lemma string_field_ok msg p v :
  parse_field (z_string [check_min 1 msg]) p v = [] <->
  exists s, v = VString s /\ s <> "".
Proof.
  split.
  - destruct v as [| | | |s|]; try discriminate.
    cbn [parse_field flat_map]. rewrite app_nil_r. intros H.
    apply string_check_min1_nil in H. eauto.
  - intros (s & -> & Hs).
    cbn [parse_field flat_map]. rewrite app_nil_r.
    apply string_check_min1_nil, Hs.
Qed.

Lemma accepts_no_issues data :
  accepts riskAssessmentSchema data = true <->
  (exists props, data = VObject props) /\ shape_issues riskAssessmentSchema data = [].
Proof.
  unfold accepts, safeParse. destruct data; try (split; [discriminate | intros [[? [=]] _]]).
  destruct (shape_issues riskAssessmentSchema (VObject props)); split; eauto.
  - discriminate.
  - intros [_ [=]].
Qed.

(** What the schema accepts: an object whose age is a number in the bounds
    and whose nine categorical fields are non-empty strings. *)
Lemma schema_accepts_iff data :
  accepts riskAssessmentSchema data = true <->
  (exists props, data = VObject props) /\
  (exists n, get_prop data "age" = VNumber n /\ in_age_range n) /\
  (forall f, In f categorical_fields ->
     exists s, get_prop data f = VString s /\ s <> "").
Proof.
  rewrite accepts_no_issues.
  unfold shape_issues, riskAssessmentSchema.
  cbn [flat_map fst snd]. rewrite !app_nil_r.
  rewrite !app_nil.
  rewrite age_field_ok. rewrite !string_field_ok.
  cbn [categorical_fields questions flat_map input key app].
  split.
  - intros (Hobj & Hage & H1 & H2 & H3 & H4 & H5 & H6 & H7 & H8 & H9).
    split; [exact Hobj|]. split; [exact Hage|].
    intros f [<-|[<-|[<-|[<-|[<-|[<-|[<-|[<-|[<-|[]]]]]]]]]]; assumption.
  - intros (Hobj & Hage & Hcat).
    split; [exact Hobj|]. split; [exact Hage|].
    repeat split; apply Hcat; simpl; tauto.
Qed.

Lemma parse_number_not_nan p n c1 c2 :
  n <> NaN ->
  parse_field (z_number [c1; c2]) p (VNumber n) =
  (number_check p n c1 ++ number_check p n c2)%list.
Proof.
  intros Hn. destruct n; try contradiction;
    cbn [parse_field flat_map]; rewrite app_nil_r; reflexivity.
Qed.

(** An age below 18 or above 100 leaves an issue at the age field. *)
Lemma age_out_of_bounds_issue n :
  num_lt n (of_Z 18) = true \/ num_gt n (of_Z 100) = true ->
  exists i,
    In i (parse_field (z_number [check_min 18 "Debe ser mayor de 18 años";
                                 check_max 100 "Edad máxima 100 años"])
            ["age"] (VNumber n)) /\
    path i = ["age"].
Proof.
  intros H.
  assert (n <> NaN) as Hn by (intros ->; destruct H as [H|H]; discriminate H).
  rewrite (parse_number_not_nan _ _ _ _ Hn).
  unfold number_check. destruct H as [H|H]; rewrite H.
  - eexists. split; [left; reflexivity | reflexivity].
  - eexists. split; [apply in_or_app; right; left; reflexivity | reflexivity].
Qed.

Lemma shape_issues_age data :
  exists rest,
    shape_issues riskAssessmentSchema data =
    (parse_field (z_number [check_min 18 "Debe ser mayor de 18 años";
                            check_max 100 "Edad máxima 100 años"])
       ["age"] (get_prop data "age") ++ rest)%list.
Proof. eexists. unfold shape_issues, riskAssessmentSchema. cbn [flat_map fst snd]. reflexivity. Qed.

Lemma safeParse_issue data i :
  (exists props, data = VObject props) ->
  In i (shape_issues riskAssessmentSchema data) ->
  exists issues, safeParse riskAssessmentSchema data = parse_error issues /\ In i issues.
Proof.
  intros [props ->] Hi. unfold safeParse.
  destruct (shape_issues riskAssessmentSchema (VObject props)) as [|j issues] eqn:E.
  - destruct Hi.
  - eauto.
Qed.

Lemma get_prop_object data k :
  get_prop data k <> VUndefined -> exists props, data = VObject props.
Proof. destruct data; simpl; try congruence. eauto. Qed.

(** C4: the schema accepts a submitted age exactly when it lies in
    [18,100]: acceptance forces the age into the range; an age in the range
    is accepted as soon as the other nine fields are; every integer from 18
    to 100 is in the range; an age below 18 or above 100 is rejected with an
    issue at the age field. *)
Theorem age_accepted_iff_in_range data n :
  get_prop data "age" = VNumber n ->
  (accepts riskAssessmentSchema data = true -> in_age_range n) /\
  ((forall f, In f categorical_fields ->
      exists s, get_prop data f = VString s /\ s <> "") ->
   in_age_range n -> accepts riskAssessmentSchema data = true) /\
  (forall z, n = of_Z z -> (in_age_range n <-> 18 <= z <= 100)) /\
  (num_lt n (of_Z 18) = true \/ num_gt n (of_Z 100) = true ->
   rejected_at "age" data).
Proof.
  intros Hage.
  assert (exists props, data = VObject props) as Hobj
    by (apply (get_prop_object data "age"); rewrite Hage; discriminate).
  split; [|split; [|split]].
  - intros Hacc. apply schema_accepts_iff in Hacc as (_ & (n' & Hn' & Hr) & _).
    rewrite Hage in Hn'. injection Hn' as <-. exact Hr.
  - intros Hcat Hr. apply schema_accepts_iff. eauto.
  - intros z ->. unfold in_age_range, of_Z.
    rewrite (Zle_Qle 18 z), (Zle_Qle z 100). reflexivity.
  - intros Hout. destruct (age_out_of_bounds_issue n Hout) as (i & Hi & Hp).
    destruct (shape_issues_age data) as [rest Hrest].
    destruct (safeParse_issue data i Hobj) as (issues & Hparse & Hin).
    { rewrite Hrest, Hage. apply in_or_app. left. exact Hi. }
    exists issues. split; [exact Hparse|]. exists i. split; assumption.
Qed.

Lemma sample_categorical_ok f :
  In f categorical_fields ->
  exists s, get_prop sample_submission f = VString s /\ s <> "".
Proof.
  intros Hf. simpl in Hf.
  destruct Hf as [<-|[<-|[<-|[<-|[<-|[<-|[<-|[<-|[<-|[]]]]]]]]]];
    (eexists; split; [reflexivity | discriminate]).
Qed.

(** An age of 30 with the other fields filled in is accepted; an age of 17
    is rejected at the age field. *)
Lemma age_accepted_iff_in_range_witness :
  get_prop sample_submission "age" = VNumber (of_Z 30) /\
  accepts riskAssessmentSchema sample_submission = true /\
  get_prop underage_submission "age" = VNumber (of_Z 17) /\
  rejected_at "age" underage_submission.
Proof.
  split; [reflexivity|]. split.
  - apply (proj1 (proj2 (age_accepted_iff_in_range
                           sample_submission (of_Z 30) eq_refl))).
    + exact sample_categorical_ok.
    + simpl. unfold Qle; simpl. lia.
  - split; [reflexivity|].
    apply (proj2 (proj2 (proj2 (age_accepted_iff_in_range
                                  underage_submission (of_Z 17) eq_refl)))).
    left. reflexivity.
Defined.

(** A field of the schema that reads as [undefined] raises "Required". *)
Lemma missing_field_issue data f :
  In f QuestionnaireAnswers_keys ->
  get_prop data f = VUndefined ->
  In (mkIssue invalid_type [f] "Required") (shape_issues riskAssessmentSchema data).
Proof.
  intros Hf Hmiss. unfold shape_issues, riskAssessmentSchema.
  cbn [flat_map fst snd]. simpl in Hf.
  destruct Hf as [<-|[<-|[<-|[<-|[<-|[<-|[<-|[<-|[<-|[<-|[]]]]]]]]]]];
    rewrite Hmiss; cbn [parse_field invalid_type_issue];
    rewrite !in_app_iff; simpl; tauto.
Qed.

Lemma accepts_false_of_issue data i :
  In i (shape_issues riskAssessmentSchema data) ->
  accepts riskAssessmentSchema data = false.
Proof.
  intros Hi. destruct (accepts riskAssessmentSchema data) eqn:E; [|reflexivity].
  apply accepts_no_issues in E as [_ E]. rewrite E in Hi. destruct Hi.
Qed.

(** C7: [QuestionnaireAnswers] has exactly ten fields, the age and the nine
    categorical ones; the schema has the same ten keys; and a submission
    in which any of the ten is absent is rejected, with the issue
    "Required" at that field. *)
Theorem ten_fields_all_required :
  QuestionnaireAnswers_keys = "age" :: categorical_fields /\
  length QuestionnaireAnswers_keys = 10%nat /\
  NoDup QuestionnaireAnswers_keys /\
  map fst riskAssessmentSchema = QuestionnaireAnswers_keys /\
  (forall a : QuestionnaireAnswers,
     exists props,
       answers_object a = VObject props /\
       map fst props = QuestionnaireAnswers_keys) /\
  (forall data f,
     In f QuestionnaireAnswers_keys ->
     get_prop data f = VUndefined ->
     accepts riskAssessmentSchema data = false) /\
  (forall props f,
     In f QuestionnaireAnswers_keys ->
     get_prop (VObject props) f = VUndefined ->
     exists issues,
       safeParse riskAssessmentSchema (VObject props) = parse_error issues /\
       In (mkIssue invalid_type [f] "Required") issues) /\
  (forall data,
     accepts riskAssessmentSchema data = true ->
     forall f, In f QuestionnaireAnswers_keys -> get_prop data f <> VUndefined).
Proof.
  split; [reflexivity|]. split; [reflexivity|].
  split; [compute_done|]. split; [reflexivity|].
  split; [intros a; eexists; split; reflexivity|].
  split; [|split].
  - intros data f Hf Hmiss.
    apply (accepts_false_of_issue data _ (missing_field_issue data f Hf Hmiss)).
  - intros props f Hf Hmiss. apply safeParse_issue; [eauto|].
    apply missing_field_issue; assumption.
  - intros data Hacc f Hf Hmiss.
    rewrite (accepts_false_of_issue data _ (missing_field_issue data f Hf Hmiss)) in Hacc.
    discriminate.
Qed.

Example underage_issue :
  safeParse riskAssessmentSchema underage_submission =
  parse_error [mkIssue too_small ["age"] "Debe ser mayor de 18 años"].
Proof. vm_compute. reflexivity. Qed.

Example no_goal_issue :
  safeParse riskAssessmentSchema no_goal_submission =
  parse_error [mkIssue invalid_type ["goal"] "Required"].
Proof. vm_compute. reflexivity. Qed.

Example not_a_number_age :
  parse_field (z_number [check_min 18 "Debe ser mayor de 18 años";
                         check_max 100 "Edad máxima 100 años"])
    ["age"] (VNumber NaN)
  = [mkIssue invalid_type ["age"] "Expected number, received nan"].
Proof. vm_compute. reflexivity. Qed.

(** The submission without a goal is rejected, "Required" at [goal]. *)
Lemma ten_fields_all_required_witness :
  In "goal" QuestionnaireAnswers_keys /\
  get_prop no_goal_submission "goal" = VUndefined /\
  accepts riskAssessmentSchema no_goal_submission = false.
Proof.
  assert (In "goal" QuestionnaireAnswers_keys) as Hin by (simpl; tauto).
  split; [exact Hin|]. split; [reflexivity|].
  exact (proj1 (proj2 (proj2 (proj2 (proj2 (proj2 ten_fields_all_required)))))
           no_goal_submission "goal" Hin eq_refl).
Defined.

(** The parsed object carries each field as it was submitted. *)
Lemma parsed_field_unchanged data out f :
  In f QuestionnaireAnswers_keys ->
  safeParse riskAssessmentSchema data = parse_success out ->
  get_prop out f = get_prop data f.
Proof.
  intros Hf. unfold safeParse. destruct data; try discriminate.
  destruct (shape_issues riskAssessmentSchema (VObject props)); [|discriminate].
  intros [= <-]. simpl in Hf.
  destruct Hf as [<-|[<-|[<-|[<-|[<-|[<-|[<-|[<-|[<-|[<-|[]]]]]]]]]]]; reflexivity.
Qed.

Lemma categorical_is_key f :
  In f categorical_fields -> In f QuestionnaireAnswers_keys.
Proof. intros Hf. right. exact Hf. Qed.

Lemma accepts_of_success data out :
  safeParse riskAssessmentSchema data = parse_success out ->
  accepts riskAssessmentSchema data = true.
Proof. unfold accepts. intros ->. reflexivity. Qed.

(** C2, as the schema has it: a categorical field that is absent, not a
    string or the empty string makes validation fail; a non-empty string is
    accepted whether or not the question offers it, and reaches the parsed
    object unchanged (no default is put in its place); every label a
    question offers is non-empty, so all of them are accepted. *)
Theorem categorical_field_nonempty_string data f :
  In f categorical_fields ->
  ((forall s, get_prop data f = VString s -> s = "") ->
   accepts riskAssessmentSchema data = false) /\
  (forall out,
     safeParse riskAssessmentSchema data = parse_success out ->
     exists s, get_prop data f = VString s /\ s <> "" /\
               get_prop out f = VString s) /\
  (accepts riskAssessmentSchema data = true <->
   (exists props, data = VObject props) /\
   (exists n, get_prop data "age" = VNumber n /\ in_age_range n) /\
   (forall g, In g categorical_fields ->
      exists s, get_prop data g = VString s /\ s <> "")) /\
  (forall l, In l (label_set f) -> l <> "").
Proof.
  intros Hf. split; [|split; [|split]].
  - intros Hbad. destruct (accepts riskAssessmentSchema data) eqn:E; [|reflexivity].
    apply schema_accepts_iff in E as (_ & _ & Hcat).
    destruct (Hcat f Hf) as (s & Hs & Hne). elim Hne. exact (Hbad s Hs).
  - intros out Hout.
    pose proof (accepts_of_success data out Hout) as E.
    apply schema_accepts_iff in E as (_ & _ & Hcat).
    destruct (Hcat f Hf) as (s & Hs & Hne). exists s.
    split; [exact Hs|]. split; [exact Hne|].
    rewrite <- Hs. apply parsed_field_unchanged; [apply categorical_is_key, Hf | exact Hout].
  - apply schema_accepts_iff.
  - intros l Hl. simpl in Hf.
    destruct Hf as [<-|[<-|[<-|[<-|[<-|[<-|[<-|[<-|[<-|[]]]]]]]]]];
      simpl in Hl; intuition (subst; discriminate).
Qed.

(** The claim as written fails: a horizon that no option offers passes the
    schema and is handed on as it is. *)
Lemma off_list_label_accepted :
  In "horizon" categorical_fields /\
  in_label_set "horizon" (get_prop off_list_submission "horizon") = false /\
  safeParse riskAssessmentSchema off_list_submission
    = parse_success off_list_submission.
Proof.
  split; [simpl; tauto|]. split; vm_compute; reflexivity.
Qed.

(** An empty knowledge level is rejected. *)
Lemma categorical_field_nonempty_string_witness :
  In "knowledge" categorical_fields /\
  accepts riskAssessmentSchema
    (VObject [("age", VNumber (of_Z 30)); ("knowledge", VString "")]) = false.
Proof.
  assert (In "knowledge" categorical_fields) as Hin by (simpl; tauto).
  split; [exact Hin|].
  apply (proj1 (categorical_field_nonempty_string
                  (VObject [("age", VNumber (of_Z 30)); ("knowledge", VString "")])
                  "knowledge" Hin)).
  intros s [= <-]. reflexivity.
Defined.

End SchemaFacts.

(** ** The request wrapper *)

Section ApiFacts.

Import Api.

Variable request : RequestConfig -> Settled AxiosResponse Thrown.

Lemma failure_success_false error :
  get_prop (failure error) "success" = VBool false /\
  get_prop (failure error) "error" = VString error.
Proof. split; reflexivity. Qed.

(** Whatever the request is rejected with, the wrapper answers with a value
    whose [success] is not truthy. *)
Lemma apiRequest_rejected m endpoint payload e :
  request (mkRequest m endpoint payload) = Rejected e ->
  exists v,
    apiRequest request m endpoint payload = Fulfilled v /\
    truthy (get_prop v "success") = false.
Proof.
  intros Hreq. unfold apiRequest. rewrite Hreq.
  destruct e as [message response | v]; cbn [isAxiosError].
  - destruct (truthy _ && negb (truthy (get_prop _ "success"))) eqn:E.
    + eexists. split; [reflexivity|].
      apply andb_prop in E as [_ E]. apply negb_true_iff in E. exact E.
    + eexists. split; reflexivity.
  - eexists. split; reflexivity.
Qed.

End ApiFacts.

(** C8, as the code has it: for every method, endpoint and payload, and
    however the request settles, [apiRequest] settles with a value and
    never with an exception. On success the value is the response body as
    it was received. A failed response whose body is truthy and whose
    [success] is not is answered with that body as it is, in particular an
    object with [success = false]. Every other axios error (no response, a
    falsy body, a body with a truthy [success]) is answered with the object
    [{ success: false, error }] holding the error's message, or
    'Error de conexión' when the message is empty; anything else that was
    thrown is answered with [{ success: false, error: 'Error inesperado' }]. *)
Theorem apiRequest_never_throws
    (request : Api.RequestConfig -> Settled Api.AxiosResponse Api.Thrown)
    (m : Api.Method) (endpoint : string) (payload : JsValue) :
  (exists v, Api.apiRequest request m endpoint payload = Fulfilled v) /\
  (forall response,
     request (Api.mkRequest m endpoint payload) = Fulfilled response ->
     Api.apiRequest request m endpoint payload = Fulfilled (Api.body response)) /\
  (forall message response,
     request (Api.mkRequest m endpoint payload)
       = Rejected (Api.AxiosError message (Some response)) ->
     truthy (Api.body response) = true ->
     truthy (get_prop (Api.body response) "success") = false ->
     Api.apiRequest request m endpoint payload = Fulfilled (Api.body response)) /\
  (forall message response props,
     request (Api.mkRequest m endpoint payload)
       = Rejected (Api.AxiosError message (Some response)) ->
     Api.body response = VObject props ->
     get_prop (Api.body response) "success" = VBool false ->
     Api.apiRequest request m endpoint payload = Fulfilled (Api.body response)) /\
  (forall message response,
     request (Api.mkRequest m endpoint payload)
       = Rejected (Api.AxiosError message (Some response)) ->
     truthy (Api.body response) = false \/
     truthy (get_prop (Api.body response) "success") = true ->
     Api.apiRequest request m endpoint payload
       = Fulfilled (VObject [("success", VBool false);
                             ("error", VString (if String.eqb message ""
                                                then "Error de conexión"
                                                else message))])) /\
  (forall message,
     request (Api.mkRequest m endpoint payload)
       = Rejected (Api.AxiosError message None) ->
     Api.apiRequest request m endpoint payload
       = Fulfilled (VObject [("success", VBool false);
                             ("error", VString (if String.eqb message ""
                                                then "Error de conexión"
                                                else message))])) /\
  (forall v,
     request (Api.mkRequest m endpoint payload) = Rejected (Api.OtherError v) ->
     Api.apiRequest request m endpoint payload
       = Fulfilled (VObject [("success", VBool false);
                             ("error", VString "Error inesperado")])) /\
  (forall e,
     request (Api.mkRequest m endpoint payload) = Rejected e ->
     exists v,
       Api.apiRequest request m endpoint payload = Fulfilled v /\
       truthy (get_prop v "success") = false).
Proof.
  split; [|split; [|split; [|split; [|split; [|split; [|split]]]]]].
  - destruct (request (Api.mkRequest m endpoint payload)) as [response|e] eqn:Hreq.
    + exists (Api.body response). unfold Api.apiRequest. rewrite Hreq. reflexivity.
    + destruct (apiRequest_rejected request m endpoint payload e Hreq) as (v & Hv & _).
      exists v. exact Hv.
  - intros response Hreq. unfold Api.apiRequest. rewrite Hreq. reflexivity.
  - intros message response Hreq Hbody Hsuccess.
    unfold Api.apiRequest. rewrite Hreq.
    cbn [Api.isAxiosError Api.response_data]. rewrite Hbody, Hsuccess. reflexivity.
  - intros message response props Hreq Hbody Hsuccess.
    unfold Api.apiRequest. rewrite Hreq.
    cbn [Api.isAxiosError Api.response_data]. rewrite Hsuccess, Hbody. reflexivity.
  - intros message response Hreq Hno.
    unfold Api.apiRequest. rewrite Hreq.
    cbn [Api.isAxiosError Api.response_data Api.error_message].
    assert (truthy (Api.body response)
            && negb (truthy (get_prop (Api.body response) "success")) = false) as ->
      by (destruct Hno as [-> | ->]; [reflexivity | apply andb_false_r]).
    unfold Api.failure, str_or, truthy.
    destruct (String.eqb message ""); reflexivity.
  - intros message Hreq. unfold Api.apiRequest. rewrite Hreq.
    unfold Api.failure, str_or, truthy. simpl.
    destruct (String.eqb message ""); reflexivity.
  - intros v Hreq. unfold Api.apiRequest. rewrite Hreq. reflexivity.
  - intros e. apply apiRequest_rejected.
Qed.

(** The claim as written fails: what [apiRequest] resolves to need not be
    an object. A 502 with a plain-text body comes back as that text, and a
    200 with the body [null] as [null]. *)
Lemma apiRequest_resolves_to_what_arrived :
  Api.apiRequest Samples.bad_gateway_client Api.GET "/api/etfs" VUndefined
    = Fulfilled (VString "Bad Gateway") /\
  Api.is_object (VString "Bad Gateway") = false /\
  Api.apiRequest Samples.null_body_client Api.GET "/api/etfs" VUndefined
    = Fulfilled VNull /\
  Api.is_object VNull = false.
Proof. repeat split. Qed.

(** With the network down, a risk-profile submission still gets an answer. *)
Lemma apiRequest_never_throws_witness :
  Api.createRiskProfile Samples.offline_client Samples.sample_submission
    = Fulfilled (VObject [("success", VBool false);
                          ("error", VString "Error de conexión")]).
Proof.
  exact (proj1 (proj2 (proj2 (proj2 (proj2 (proj2
    (apiRequest_never_throws Samples.offline_client Api.POST
       "/api/analysis/risk-profile"
       (VObject [("answers", Samples.sample_submission)])))))))
    "" eq_refl).
Defined.

(** ** The scorer *)

Section ScorerFacts.

Import RiskAssessmentPage Engine Samples.

Variable T : ScoreWeightTable.
Hypothesis T_ok : table_ok T.

Lemma score_age_valid answers n a :
  get_prop answers "age" = VNumber n -> as_integer n = Some a -> 18 <= a <= 100 ->
  score_age T answers = Fulfilled (age_points T a) /\ 0 <= age_points T a <= 5.
Proof.
  intros Hage Hint Ha. unfold score_age. rewrite Hage, Hint.
  destruct (Z.leb_spec 18 a); [|lia]. destruct (Z.leb_spec a 100); [|lia].
  split; [reflexivity|]. apply (age_points_range T T_ok), Ha.
Qed.

Lemma score_label_valid answers f l :
  In f categorical_fields -> get_prop answers f = VString l -> In l (label_set f) ->
  exists p, score_label T answers f = Fulfilled p /\ 0 <= p <= 5.
Proof.
  intros Hf Hl Hin. unfold score_label. rewrite Hl.
  destruct (label_points_total T T_ok f l Hf Hin) as (m & p & Hm & Hp).
  rewrite Hm. simpl. rewrite Hp. exists p. split; [reflexivity|].
  apply (label_points_range T T_ok f m l p Hm Hp).
Qed.

(** The labels add between 0 and 5 points each to the running sum. *)
Lemma score_labels_valid answers fields :
  (forall f, In f fields ->
     In f categorical_fields /\
     exists l, get_prop answers f = VString l /\ In l (label_set f)) ->
  forall acc, exists k,
    score_labels T answers fields acc = Fulfilled (acc + k) /\
    0 <= k <= 5 * Z.of_nat (length fields).
Proof.
  induction fields as [|f fields IH]; intros Hall acc.
  - exists 0. split; [simpl; f_equal; lia | simpl; lia].
  - destruct (Hall f (or_introl eq_refl)) as (Hf & l & Hl & Hin).
    destruct (score_label_valid answers f l Hf Hl Hin) as (p & Hp & Hrange).
    destruct (IH (fun g Hg => Hall g (or_intror Hg)) (acc + p)) as (k & Hk & Hkr).
    exists (p + k). split.
    + cbn [score_labels]. rewrite Hp. cbn [bind]. rewrite Hk. f_equal. lia.
    + cbn [length]. lia.
Qed.

Lemma score_valid answers :
  valid_answers answers ->
  exists s, score T answers = Fulfilled s /\ 0 <= s <= 50.
Proof.
  intros [(n & a & Hage & Hint & Ha) Hcat].
  destruct (score_age_valid answers n a Hage Hint Ha) as [Hsa Hra].
  destruct (score_labels_valid answers categorical_fields
              (fun f Hf => conj Hf (Hcat f Hf)) (age_points T a)) as (k & Hk & Hkr).
  exists (age_points T a + k). split.
  - unfold score. rewrite Hsa. exact Hk.
  - change (length categorical_fields) with 9%nat in Hkr. lia.
Qed.

End ScorerFacts.

Section ScorerDeterminism.

Import RiskAssessmentPage Engine.

Variable T : ScoreWeightTable.

Lemma score_labels_ext a b fields :
  (forall f, In f fields -> get_prop a f = get_prop b f) ->
  forall acc, score_labels T a fields acc = score_labels T b fields acc.
Proof.
  induction fields as [|f fields IH]; intros Hsame acc; [reflexivity|].
  cbn [score_labels]. unfold score_label.
  rewrite (Hsame f (or_introl eq_refl)).
  destruct (get_prop b f); try reflexivity.
  destruct (label_points T !! f ≫= _); [|reflexivity].
  cbn [bind]. apply IH. intros g Hg. apply Hsame. right. exact Hg.
Qed.

(** The score reads the ten answers and nothing else. *)
Lemma score_ext a b :
  (forall f, In f QuestionnaireAnswers_keys -> get_prop a f = get_prop b f) ->
  score T a = score T b.
Proof.
  intros Hsame. unfold score, score_age.
  rewrite (Hsame "age" (or_introl eq_refl)).
  destruct (score_age T b) eqn:E; unfold score_age in E; rewrite E; [|reflexivity].
  cbn [bind]. apply score_labels_ext. intros f Hf. apply Hsame. right. exact Hf.
Qed.

End ScorerDeterminism.

Section ScorerClaim.

Import RiskAssessmentPage Engine Samples.

(** C1: for any score table within the spec's ranges, scoring valid
    answers succeeds with a total in [0,50]; and the score is a function of
    the ten answers alone: two submissions with the same answers get the
    same outcome. *)
Theorem score_deterministic_in_range (T : ScoreWeightTable) :
  table_ok T ->
  (forall answers,
     valid_answers answers ->
     exists s, score T answers = Fulfilled s /\ 0 <= s <= 50) /\
  (forall a b,
     (forall f, In f QuestionnaireAnswers_keys -> get_prop a f = get_prop b f) ->
     score T a = score T b) /\
  (forall a b, a = b -> score T a = score T b).
Proof.
  intros T_ok. split; [|split].
  - intros answers. apply score_valid, T_ok.
  - apply score_ext.
  - intros a b ->. reflexivity.
Qed.

Lemma example_table_ok : table_ok example_table.
Proof.
  constructor.
  - intros a Ha. unfold example_table, age_points. repeat case_match; lia.
  - intros f m l p Hm Hp.
    apply elem_of_list_to_map_2 in Hm. cbn in Hm.
    repeat (apply elem_of_cons in Hm as [Hm|Hm];
            [injection Hm as -> ->;
             repeat (apply lookup_insert_Some in Hp as [[_ <-]|[_ Hp]]; [lia|]);
             rewrite lookup_empty in Hp; discriminate Hp |]).
    apply elem_of_nil in Hm. destruct Hm.
  - intros f l Hf Hl. simpl in Hf.
    destruct Hf as [<-|[<-|[<-|[<-|[<-|[<-|[<-|[<-|[<-|[]]]]]]]]]];
      simpl in Hl;
      repeat (destruct Hl as [<-|Hl];
              [eexists _, _; split; vm_compute; reflexivity|]);
      destruct Hl.
Qed.

Lemma sample_submission_valid : valid_answers sample_submission.
Proof.
  split.
  - exists (of_Z 30), 30. split; [reflexivity|]. split; [reflexivity | lia].
  - intros f Hf. simpl in Hf.
    destruct Hf as [<-|[<-|[<-|[<-|[<-|[<-|[<-|[<-|[<-|[]]]]]]]]]];
      (eexists; split; [reflexivity | simpl; tauto]).
Qed.

Example sample_score : score example_table sample_submission = Fulfilled 28.
Proof. vm_compute. reflexivity. Qed.

Example off_list_score :
  score example_table off_list_submission = Rejected (ValidationError "horizon").
Proof. vm_compute. reflexivity. Qed.

(** The sample questionnaire scores within [0,50] under the example table. *)
Lemma score_deterministic_in_range_witness :
  exists s, score example_table sample_submission = Fulfilled s /\ 0 <= s <= 50.
Proof.
  exact (proj1 (score_deterministic_in_range example_table example_table_ok)
           sample_submission sample_submission_valid).
Defined.

End ScorerClaim.

(** ** The diversification score *)

Section DiversificationFacts.

Import Diversification.

Local Open Scope Q_scope.

(** The accumulated index is the starting value plus the sum of squares. *)
Lemma concentration_fold (allocation : Allocation) : forall acc,
  fold_left (fun acc tw => acc + snd tw * snd tw) allocation acc
  == acc + sum_of_squares allocation.
Proof.
  induction allocation as [|tw allocation IH]; intros acc.
  - unfold sum_of_squares. simpl. ring.
  - cbn [fold_left]. rewrite IH. unfold sum_of_squares. simpl. ring.
Qed.

(** C3: the diversification score of any allocation is 1 − Σ(weight²);
    a single instrument with weight 1 scores 0, and five instruments with
    weight 0.2 each score 0.8. *)
Theorem diversification_score_formula (category : string -> string) :
  (forall allocation,
     score (analyze_diversification category allocation)
     == 1 - sum_of_squares allocation) /\
  (forall t,
     score (analyze_diversification category [(t, 1)]) == 0) /\
  (forall t1 t2 t3 t4 t5,
     score (analyze_diversification category
               [(t1, 0.2); (t2, 0.2); (t3, 0.2); (t4, 0.2); (t5, 0.2)])
     == 0.8).
Proof.
  assert (forall allocation,
            score (analyze_diversification category allocation)
            == 1 - sum_of_squares allocation) as Hformula.
  { intros allocation. unfold analyze_diversification. cbn [score].
    rewrite concentration_fold. ring. }
  split; [exact Hformula|]. split.
  - intros t. rewrite Hformula. reflexivity.
  - intros t1 t2 t3 t4 t5. rewrite Hformula. reflexivity.
Qed.

Example concentrated_report :
  recommendations
    (analyze_diversification (fun t => t) [("ACWI", 0.9); ("GLD", 0.1)])
  = [ReduceConcentration; BroadenDiversification].
Proof. vm_compute. reflexivity. Qed.

End DiversificationFacts.

(** * Further properties of the client *)

(** ** The token storage *)

Section TokenFacts.
Import TokenManager.

Lemma token_keys_differ : TOKEN_KEY <> REFRESH_TOKEN_KEY.
Proof. discriminate. Qed.

(** X1: a token that was set is the one read back; the access token and
    the refresh token do not disturb each other, nor any other key of the
    storage; a removed token reads as [null]. *)
Theorem token_round_trip (ls : gmap string string) (t : string) :
  getToken (setToken t ls) = Some t /\
  getRefreshToken (setRefreshToken t ls) = Some t /\
  getRefreshToken (setToken t ls) = getRefreshToken ls /\
  getToken (setRefreshToken t ls) = getToken ls /\
  getToken (removeToken (setToken t ls)) = None /\
  getRefreshToken (removeRefreshToken (setRefreshToken t ls)) = None /\
  (forall k, k <> TOKEN_KEY -> setToken t ls !! k = ls !! k) /\
  (forall k, k <> REFRESH_TOKEN_KEY -> setRefreshToken t ls !! k = ls !! k).
Proof.
  unfold getToken, setToken, getRefreshToken, setRefreshToken, removeToken,
    removeRefreshToken.
  repeat split.
  - apply lookup_insert_eq.
  - apply lookup_insert_eq.
  - apply lookup_insert_ne. discriminate.
  - apply lookup_insert_ne. discriminate.
  - apply lookup_delete_eq.
  - apply lookup_delete_eq.
  - intros k Hk. apply lookup_insert_ne. congruence.
  - intros k Hk. apply lookup_insert_ne. congruence.
Qed.

(** X2: [clearTokens] removes the two tokens and nothing else, whatever
    was stored; doing it twice, or removing the tokens one by one in either
    order, gives the same storage. *)
Theorem clearTokens_exact (ls : gmap string string) :
  getToken (clearTokens ls) = None /\
  getRefreshToken (clearTokens ls) = None /\
  (forall k, k <> TOKEN_KEY -> k <> REFRESH_TOKEN_KEY -> clearTokens ls !! k = ls !! k) /\
  clearTokens (clearTokens ls) = clearTokens ls /\
  clearTokens ls = removeToken (removeRefreshToken ls) /\
  (forall a r, clearTokens (setRefreshToken r (setToken a ls)) = clearTokens ls).
Proof.
  unfold getToken, getRefreshToken, clearTokens, removeToken, removeRefreshToken,
    setToken, setRefreshToken.
  split; [|split; [|split; [|split; [|split]]]].
  - rewrite lookup_delete_ne by discriminate. apply lookup_delete_eq.
  - apply lookup_delete_eq.
  - intros k H1 H2. rewrite !lookup_delete_ne by congruence. reflexivity.
  - apply map_eq. intros k. rewrite !lookup_delete. repeat case_decide; reflexivity.
  - apply map_eq. intros k. rewrite !lookup_delete. repeat case_decide; reflexivity.
  - intros a r. apply map_eq. intros k.
    rewrite !lookup_delete, !lookup_insert. repeat case_decide; try reflexivity; congruence.
Qed.
End TokenFacts.

(** ** The client and its interceptors *)

Section HttpFacts.
Import TokenManager Http.

Variable API_BASE_URL : string.
Variable number_to_string : JsNumber -> string.
Variable net : Network.

Abbreviation client := (apiClient API_BASE_URL number_to_string net).
Abbreviation run := (apiClient_request API_BASE_URL number_to_string net).

Lemma request_interceptor_keeps ls config :
  request (request_interceptor ls config) = request config /\
  _retry (request_interceptor ls config) = _retry config /\
  (forall h, h <> "Authorization" ->
     headers (request_interceptor ls config) !! h = headers config !! h).
Proof.
  unfold request_interceptor.
  destruct (getToken ls) as [token|]; [|tauto].
  destruct (truthy (VString token)); [|tauto].
  simpl. repeat split. intros h Hh. apply lookup_insert_ne. congruence.
Qed.

(** X3: the request interceptor leaves the request, the retry mark and
    every header but [Authorization] as they are; it sets [Authorization]
    to "Bearer <token>" when a non-empty access token is stored, and
    returns the config untouched when none (or an empty one) is. *)
Theorem request_interceptor_bearer ls config :
  request (request_interceptor ls config) = request config /\
  _retry (request_interceptor ls config) = _retry config /\
  (forall h, h <> "Authorization" ->
     headers (request_interceptor ls config) !! h = headers config !! h) /\
  (forall token, getToken ls = Some token -> token <> "" ->
     headers (request_interceptor ls config) !! "Authorization"
     = Some ("Bearer " +:+ token)) /\
  (present (getToken ls) = false -> request_interceptor ls config = config).
Proof.
  destruct (request_interceptor_keeps ls config) as (H1 & H2 & H3).
  split; [exact H1|]. split; [exact H2|]. split; [exact H3|]. split.
  - intros token Ht Hne. unfold request_interceptor. rewrite Ht.
    destruct token as [|c token]; [contradiction|]. simpl. apply lookup_insert_eq.
  - unfold present, request_interceptor. destruct (getToken ls) as [token|]; [|reflexivity].
    intros ->. reflexivity.
Qed.

Lemma client_step fuel config b :
  client (S fuel) config b =
  match net (requests_sent b) (request_interceptor (localStorage b) config) with
  | Fulfilled response => Some (Fulfilled response, sent b)
  | Rejected error =>
      on_rejected API_BASE_URL number_to_string net (client fuel) error
        (request_interceptor (localStorage b) config) (sent b)
  end.
Proof. reflexivity. Qed.

(** A request that carries the retry mark is sent once and never resent. *)
Lemma client_retried fuel config b :
  _retry config = true ->
  client (S fuel) config b =
  Some (match net (requests_sent b) (request_interceptor (localStorage b) config) with
        | Fulfilled response => Fulfilled response
        | Rejected error => Rejected (as_thrown error)
        end, sent b).
Proof.
  intros Hretry. rewrite client_step.
  destruct (net _ _) as [response|error]; [reflexivity|].
  unfold on_rejected.
  rewrite (proj1 (proj2 (request_interceptor_keeps _ _))), Hretry.
  rewrite andb_false_r. reflexivity.
Qed.

Lemma client_settles n config b :
  exists out b',
    client (S (S n)) config b = Some (out, b') /\
    client 2 config b = Some (out, b') /\
    (requests_sent b < requests_sent b' <= requests_sent b + 3)%nat.
Proof.
  rewrite (client_step (S n)), (client_step 1).
  destruct (net (requests_sent b) (request_interceptor (localStorage b) config))
    as [response|error].
  { eexists _, _. split; [reflexivity|]. split; [reflexivity|]. simpl. lia. }
  unfold on_rejected.
  destruct (is_401 error && negb (_retry _)).
  2:{ eexists _, _. split; [reflexivity|]. split; [reflexivity|]. simpl. lia. }
  destruct (getRefreshToken (localStorage (sent b))) as [refreshToken|].
  2:{ eexists _, _. split; [reflexivity|]. split; [reflexivity|]. simpl. lia. }
  destruct (truthy (VString refreshToken)).
  2:{ eexists _, _. split; [reflexivity|]. split; [reflexivity|]. simpl. lia. }
  destruct (net (requests_sent (sent b)) _) as [response|refreshError].
  2:{ eexists _, _. split; [reflexivity|]. split; [reflexivity|]. simpl. lia. }
  destruct (read_access_token response) as [access_token|refreshError].
  2:{ eexists _, _. split; [reflexivity|]. split; [reflexivity|]. simpl. lia. }
  rewrite (client_retried n), (client_retried 0) by reflexivity.
  eexists _, _. split; [reflexivity|]. split; [reflexivity|]. simpl. lia.
Qed.

(** X4: whatever the server answers, a call of the client settles: any
    fuel from two rounds on gives the same result, and between one and
    three requests leave the browser (the call, at most one refresh, at
    most one resend). *)
Theorem apiClient_two_rounds fuel r b :
  (2 <= fuel)%nat ->
  client fuel (initial_config r) b = Some (run r b) /\
  (requests_sent b < requests_sent (snd (run r b)) <= requests_sent b + 3)%nat.
Proof.
  intros Hfuel. destruct fuel as [|[|n]]; try lia.
  destruct (client_settles n (initial_config r) b) as (out & b' & H1 & H2 & H3).
  unfold apiClient_request. rewrite H1, H2. simpl. split; [reflexivity | exact H3].
Qed.


(** What one call does, case by case. *)
Lemma run_cases r b :
  run r b =
  let c1 := request_interceptor (localStorage b) (initial_config r) in
  match net (requests_sent b) c1 with
  | Fulfilled response => (Fulfilled response, sent b)
  | Rejected error =>
      if is_401 error then
        match getRefreshToken (localStorage b) with
        | Some refreshToken =>
            if truthy (VString refreshToken) then
              match net (S (requests_sent b)) (refresh_config API_BASE_URL refreshToken) with
              | Fulfilled response =>
                  match read_access_token response with
                  | Fulfilled access_token =>
                      let tok := ToString number_to_string access_token in
                      let b2 := store_token tok (sent (sent b)) in
                      let c2 :=
                        request_interceptor (localStorage b2)
                          (set_authorization ("Bearer " +:+ tok)
                             (mkConfig (request c1) (headers c1) true)) in
                      (match net (requests_sent b2) c2 with
                       | Fulfilled response => Fulfilled response
                       | Rejected error => Rejected (as_thrown error)
                       end, sent b2)
                  | Rejected refreshError =>
                      (Rejected refreshError, clear_and_redirect (sent (sent b)))
                  end
              | Rejected refreshError =>
                  (Rejected (as_thrown refreshError), clear_and_redirect (sent (sent b)))
              end
            else (Rejected (as_thrown error), clear_and_redirect (sent b))
        | None => (Rejected (as_thrown error), clear_and_redirect (sent b))
        end
      else (Rejected (as_thrown error), sent b)
  end.
Proof.
  unfold apiClient_request. rewrite client_step. cbn zeta.
  destruct (net (requests_sent b) _) as [response|error]; [reflexivity|].
  unfold on_rejected.
  rewrite (proj1 (proj2 (request_interceptor_keeps _ _))).
  cbn [initial_config _retry negb]. rewrite andb_true_r.
  destruct (is_401 error); [|reflexivity].
  cbn [sent localStorage requests_sent].
  destruct (getRefreshToken (localStorage b)) as [refreshToken|]; [|reflexivity].
  destruct (truthy (VString refreshToken)); [|reflexivity].
  destruct (net (S (requests_sent b)) _) as [response|refreshError]; [|reflexivity].
  destruct (read_access_token response) as [access_token|refreshError]; [|reflexivity].
  rewrite client_retried by reflexivity. reflexivity.
Qed.

(** X5: a failure that is not a 401 is passed on as it is: the call is
    rejected with that error after one request, and neither the storage
    nor the address of the window changes. *)
Theorem other_errors_pass_through r b error :
  net (requests_sent b) (request_interceptor (localStorage b) (initial_config r))
    = Rejected error ->
  is_401 error = false ->
  run r b = (Rejected (as_thrown error), sent b) /\
  localStorage (snd (run r b)) = localStorage b /\
  location_href (snd (run r b)) = location_href b /\
  requests_sent (snd (run r b)) = S (requests_sent b).
Proof.
  intros Hnet H401.
  assert (run r b = (Rejected (as_thrown error), sent b)) as Hrun.
  { rewrite run_cases. cbn zeta. rewrite Hnet, H401. reflexivity. }
  rewrite Hrun. repeat split.
Qed.

(** X6: when a fresh request is answered with 401 and the session cannot
    be refreshed (no usable refresh token, a rejected refresh call, or an
    answer without a readable payload), the call is rejected, both tokens
    are removed and the window is sent to "/login". *)
Theorem failed_refresh_signs_out r b error :
  net (requests_sent b) (request_interceptor (localStorage b) (initial_config r))
    = Rejected error ->
  is_401 error = true ->
  refresh_fails_in API_BASE_URL net b ->
  (exists thrown, fst (run r b) = Rejected thrown) /\
  localStorage (snd (run r b)) = clearTokens (localStorage b) /\
  getToken (localStorage (snd (run r b))) = None /\
  getRefreshToken (localStorage (snd (run r b))) = None /\
  location_href (snd (run r b)) = "/login".
Proof.
  intros Hnet H401 Hfail.
  assert (exists thrown n,
            run r b = (Rejected thrown,
                       mkBrowser (clearTokens (localStorage b)) "/login" n)) as Hrun.
  { rewrite run_cases. cbn zeta. rewrite Hnet, H401.
    destruct Hfail as [Hnone | (refreshToken & Hrt & Hcall)].
    - unfold present in Hnone.
      destruct (getRefreshToken (localStorage b)) as [refreshToken|].
      + rewrite Hnone. eexists _, _. reflexivity.
      + eexists _, _. reflexivity.
    - rewrite Hrt. destruct (truthy (VString refreshToken)).
      + destruct (net (S (requests_sent b)) _) as [response|refreshError].
        * destruct Hcall as [thrown ->]. eexists _, _. reflexivity.
        * eexists _, _. reflexivity.
      + eexists _, _. reflexivity. }
  destruct Hrun as (thrown & n & ->). cbn [fst snd localStorage location_href].
  split; [eauto|]. split; [reflexivity|].
  unfold getToken, getRefreshToken, clearTokens.
  split; [|split; [|reflexivity]].
  - rewrite lookup_delete_ne by discriminate. apply lookup_delete_eq.
  - apply lookup_delete_eq.
Qed.

(** X7: when a fresh request is answered with 401 and the refresh call
    returns an access token, that token is stored, the refresh token and
    the address stay, and the request is sent once more, marked as a retry
    and carrying the new token; the call settles the way that resend does,
    so a resend that fails, even with 401, signs nobody out. *)
Theorem refreshed_token_is_used r b error refreshToken response access_token :
  net (requests_sent b) (request_interceptor (localStorage b) (initial_config r))
    = Rejected error ->
  is_401 error = true ->
  getRefreshToken (localStorage b) = Some refreshToken ->
  refreshToken <> "" ->
  net (S (requests_sent b)) (refresh_config API_BASE_URL refreshToken)
    = Fulfilled response ->
  read_access_token response = Fulfilled access_token ->
  let tok := ToString number_to_string access_token in
  localStorage (snd (run r b)) = setToken tok (localStorage b) /\
  getToken (localStorage (snd (run r b))) = Some tok /\
  getRefreshToken (localStorage (snd (run r b))) = Some refreshToken /\
  location_href (snd (run r b)) = location_href b /\
  requests_sent (snd (run r b)) = (requests_sent b + 3)%nat /\
  exists resent,
    request resent = r /\
    _retry resent = true /\
    headers resent !! "Authorization" = Some ("Bearer " +:+ tok) /\
    fst (run r b) =
      match net (S (S (requests_sent b))) resent with
      | Fulfilled answer => Fulfilled answer
      | Rejected again => Rejected (as_thrown again)
      end.
Proof.
  intros Hnet H401 Hrt Hne Hrefresh Hread tok.
  rewrite run_cases. cbn zeta. rewrite Hnet, H401, Hrt.
  destruct refreshToken as [|c refreshToken]; [contradiction|].
  cbn [truthy String.eqb negb]. rewrite Hrefresh, Hread.
  cbn [fst snd sent store_token localStorage location_href requests_sent].
  fold tok.
  split; [reflexivity|].
  split; [apply lookup_insert_eq|].
  split; [unfold getRefreshToken, setToken; rewrite lookup_insert_ne by discriminate;
          exact Hrt|].
  split; [reflexivity|]. split; [lia|].
  eexists. split; [|split; [|split; [|reflexivity]]].
  - rewrite (proj1 (request_interceptor_keeps _ _)). cbn.
    rewrite (proj1 (request_interceptor_keeps _ _)). reflexivity.
  - rewrite (proj1 (proj2 (request_interceptor_keeps _ _))). reflexivity.
  - unfold request_interceptor at 1. unfold getToken, setToken.
    rewrite lookup_insert_eq.
    destruct (truthy (VString tok)); cbn; apply lookup_insert_eq.
Qed.

(** X8: [apiRequest] run over this client always settles with a value;
    when the client rejects, the value's [success] is not truthy; and the
    browser is left as the client left it. *)
Theorem apiRequest_over_client m endpoint payload b :
  (exists v,
     fst (apiRequest API_BASE_URL number_to_string net m endpoint payload b)
       = Fulfilled v /\
     (forall thrown,
        fst (run (Api.mkRequest m endpoint payload) b) = Rejected thrown ->
        truthy (get_prop v "success") = false)) /\
  snd (apiRequest API_BASE_URL number_to_string net m endpoint payload b)
    = snd (run (Api.mkRequest m endpoint payload) b).
Proof.
  split; [|reflexivity].
  unfold apiRequest. cbn [fst].
  destruct (fst (run (Api.mkRequest m endpoint payload) b)) as [response|thrown] eqn:E.
  - exists (Api.body response). split; [|discriminate].
    unfold Api.apiRequest. rewrite E. reflexivity.
  - destruct (apiRequest_rejected (fun r => fst (run r b)) m endpoint payload thrown E)
      as (v & Hv & Hs).
    exists v. split; [exact Hv|]. intros _ _. exact Hs.
Qed.

End HttpFacts.


(** The sample runs are the same under every number printer. *)
Lemma sample_runs_print_no_number (printer : JsNumber -> string) :
  Forall
    (fun server =>
       Http.apiClient_request "" printer server
         Samples.profile_request Samples.session_browser
       = Http.apiClient_request "" Samples.blank_printer server
           Samples.profile_request Samples.session_browser)
    [Samples.failing_server; Samples.locked_server; Samples.expired_server].
Proof. repeat constructor. Qed.

(** Five rounds of fuel give what two do. *)
Lemma apiClient_two_rounds_witness :
  (2 <= 5)%nat /\
  Http.apiClient "" Samples.blank_printer Samples.expired_server 5
    (Http.initial_config Samples.profile_request) Samples.session_browser
  = Some (Http.apiClient_request "" Samples.blank_printer Samples.expired_server
            Samples.profile_request Samples.session_browser).
Proof.
  assert (2 <= 5)%nat as H by lia.
  split; [exact H|].
  exact (proj1 (apiClient_two_rounds "" Samples.blank_printer Samples.expired_server
                  5 Samples.profile_request Samples.session_browser H)).
Defined.

(** A 500 leaves the session alone. *)
Lemma other_errors_pass_through_witness :
  Http.is_401 (Samples.status_error 500) = false /\
  Http.localStorage
    (snd (Http.apiClient_request "" Samples.blank_printer Samples.failing_server
            Samples.profile_request Samples.session_browser))
  = Http.localStorage Samples.session_browser.
Proof.
  split; [reflexivity|].
  exact (proj1 (proj2 (other_errors_pass_through "" Samples.blank_printer
                         Samples.failing_server Samples.profile_request
                         Samples.session_browser (Samples.status_error 500)
                         eq_refl eq_refl))).
Defined.

Lemma locked_refresh_fails :
  Http.refresh_fails_in "" Samples.locked_server Samples.session_browser.
Proof. right. exists "refresh-1". split; [reflexivity | exact I]. Qed.

(** A server that answers 401 to everything ends the session. *)
Lemma failed_refresh_signs_out_witness :
  Http.is_401 (Samples.status_error 401) = true /\
  Http.location_href
    (snd (Http.apiClient_request "" Samples.blank_printer Samples.locked_server
            Samples.profile_request Samples.session_browser))
  = "/login".
Proof.
  split; [reflexivity|].
  exact (proj2 (proj2 (proj2 (proj2
           (failed_refresh_signs_out "" Samples.blank_printer Samples.locked_server
              Samples.profile_request Samples.session_browser
              (Samples.status_error 401) eq_refl eq_refl locked_refresh_fails))))).
Defined.

Lemma refresh_token_not_empty : "refresh-1" <> "".
Proof. discriminate. Qed.

(** An expired session is renewed: the new access token is stored. *)
Lemma refreshed_token_is_used_witness :
  TokenManager.getRefreshToken (Http.localStorage Samples.session_browser)
    = Some "refresh-1" /\
  TokenManager.getToken
    (Http.localStorage
       (snd (Http.apiClient_request "" Samples.blank_printer Samples.expired_server
               Samples.profile_request Samples.session_browser)))
  = Some "access-2".
Proof.
  split; [reflexivity|].
  exact (proj1 (proj2
           (refreshed_token_is_used "" Samples.blank_printer Samples.expired_server
              Samples.profile_request Samples.session_browser
              (Samples.status_error 401) "refresh-1"
              (Samples.answer 200
                 (VObject [("success", VBool true);
                           ("data", VObject [("access_token", VString "access-2")])]))
              (VString "access-2")
              eq_refl eq_refl eq_refl refresh_token_not_empty eq_refl eq_refl))).
Defined.

(** ** The provider's operations *)

Section ProviderFacts.
Import TokenManager AuthProvider.

Variable api_login : string -> string -> Call Credentials.
Variable api_register :
  string -> string -> option string -> option string -> Call Credentials.
Variable api_logout : Call JsValue.
Variable api_getProfile : Call User.
Variable api_updateProfile : ProfileData -> Call PartialUser.
Variable api_changePassword : string -> string -> Call JsValue.

Abbreviation perform_ :=
  (perform api_login api_register api_logout api_getProfile api_updateProfile
           api_changePassword).

Lemma sign_in_cases (call : Call Credentials) (failed : string) app :
  let started := dispatch AuthContext.AUTH_START app in
  let r := call (browser app) in
  forall result,
  result =
    (let (outcome, b) := r in
     let app := with_browser b started in
     match outcome with
     | Fulfilled response =>
         match success response, data response with
         | true, Some credentials =>
             let app := on_storage (setToken (access_token credentials)) app in
             let app := on_storage (setRefreshToken (refresh_token credentials)) app in
             (true, dispatch_success (user credentials) app)
         | _, _ =>
             (false, dispatch (AuthContext.AUTH_ERROR (error_or (error response) failed)) app)
         end
     | Rejected _ => (false, dispatch (AuthContext.AUTH_ERROR failed) app)
     end) ->
  match succeeded r with
  | Some credentials =>
      fst result = true /\
      state (snd result)
        = AuthContext.mkState (user credentials) true false None /\
      Http.localStorage (browser (snd result))
        = setRefreshToken (refresh_token credentials)
            (setToken (access_token credentials) (Http.localStorage (snd r))) /\
      Http.location_href (browser (snd result)) = Http.location_href (snd r)
  | None =>
      fst result = false /\
      (exists msg, state (snd result) = signed_out_state (Some msg)) /\
      browser (snd result) = snd r
  end.
Proof.
  intros started r result ->. unfold succeeded.
  destruct r as [[response|thrown] b]; cbn [fst snd].
  - destruct (success response); [destruct (data response) as [credentials|]|].
    + destruct (user credentials); repeat split.
    + split; [reflexivity|]. split; [eexists; reflexivity | reflexivity].
    + destruct (data response); (split; [reflexivity|]; split; [eexists; reflexivity | reflexivity]).
  - split; [reflexivity|]. split; [eexists; reflexivity | reflexivity].
Qed.

Abbreviation login_ := (login api_login).
Abbreviation register_ := (register api_register).
Abbreviation logout_ := (logout api_logout).
Abbreviation checkAuth_ := (checkAuth api_getProfile).
Abbreviation updateProfile_ := (updateProfile api_updateProfile).
Abbreviation changePassword_ := (changePassword api_changePassword).

(** X9: [login] and [register] return [true] exactly when they leave the
    state authenticated, and never leave it loading. With a successful
    answer that has a payload, the state holds the payload's user without
    an error and the storage holds its two tokens; otherwise the state is
    signed out with an error message and the browser is as the call left
    it. *)
Theorem sign_in_result_matches_state app :
  (forall email password,
     let r := api_login email password (browser app) in
     let result := login_ email password app in
     fst result = AuthContext.isAuthenticated (state (snd result)) /\
     AuthContext.isLoading (state (snd result)) = false /\
     match succeeded r with
     | Some credentials =>
         fst result = true /\
         state (snd result)
           = AuthContext.mkState (user credentials) true false None /\
         Http.localStorage (browser (snd result))
           = setRefreshToken (refresh_token credentials)
               (setToken (access_token credentials) (Http.localStorage (snd r))) /\
         Http.location_href (browser (snd result)) = Http.location_href (snd r)
     | None =>
         fst result = false /\
         (exists msg, state (snd result) = signed_out_state (Some msg)) /\
         browser (snd result) = snd r
     end) /\
  (forall email password firstName lastName,
     let r := api_register email password firstName lastName (browser app) in
     let result := register_ email password firstName lastName app in
     fst result = AuthContext.isAuthenticated (state (snd result)) /\
     AuthContext.isLoading (state (snd result)) = false /\
     match succeeded r with
     | Some credentials =>
         fst result = true /\
         state (snd result)
           = AuthContext.mkState (user credentials) true false None /\
         Http.localStorage (browser (snd result))
           = setRefreshToken (refresh_token credentials)
               (setToken (access_token credentials) (Http.localStorage (snd r))) /\
         Http.location_href (browser (snd result)) = Http.location_href (snd r)
     | None =>
         fst result = false /\
         (exists msg, state (snd result) = signed_out_state (Some msg)) /\
         browser (snd result) = snd r
     end).
Proof.
  split.
  - intros email password. cbn zeta.
    pose proof (sign_in_cases (api_login email password) "Login failed" app
                  (login_ email password app) eq_refl) as H.
    cbn zeta in H. revert H.
    destruct (succeeded (api_login email password (browser app))) as [credentials|].
    + intros (H1 & H2 & H3). rewrite H1, H2. repeat split; tauto.
    + intros (H1 & (msg & H2) & H3). rewrite H1, H2. repeat split; eauto.
  - intros email password firstName lastName. cbn zeta.
    pose proof (sign_in_cases (api_register email password firstName lastName)
                  "Registration failed" app
                  (register_ email password firstName lastName app) eq_refl) as H.
    cbn zeta in H. revert H.
    destruct (succeeded (api_register email password firstName lastName (browser app)))
      as [credentials|].
    + intros (H1 & H2 & H3). rewrite H1, H2. repeat split; tauto.
    + intros (H1 & (msg & H2) & H3). rewrite H1, H2. repeat split; eauto.
Qed.

(** X10: [logout] signs out whatever the API call does: the state has no
    user, is not authenticated, not loading and without error, and both
    tokens are gone from the storage. *)
Theorem logout_always_signs_out app :
  state (logout_ app) = signed_out_state None /\
  getToken (Http.localStorage (browser (logout_ app))) = None /\
  getRefreshToken (Http.localStorage (browser (logout_ app))) = None /\
  Http.localStorage (browser (logout_ app))
    = clearTokens (Http.localStorage (snd (api_logout (browser app)))) /\
  Http.location_href (browser (logout_ app))
    = Http.location_href (snd (api_logout (browser app))).
Proof.
  unfold logout. destruct (api_logout (browser app)) as [outcome b].
  cbn. unfold getToken, getRefreshToken, clearTokens.
  repeat split.
  - rewrite lookup_delete_ne by discriminate. apply lookup_delete_eq.
  - apply lookup_delete_eq.
Qed.

(** X11: [checkAuth] never leaves the state loading. Without a usable
    access token it reports "No token found" and touches nothing else.
    The state is authenticated afterwards exactly when a token was stored
    and the profile call succeeded with a profile, which is then the user.
    When it is not authenticated, no usable access token is left in the
    storage. *)
Theorem checkAuth_settles app :
  let after := checkAuth_ app in
  AuthContext.isLoading (state after) = false /\
  (present (getToken (Http.localStorage (browser app))) = false ->
     after = mkApp (signed_out_state (Some "No token found")) (browser app)) /\
  (AuthContext.isAuthenticated (state after) = true <->
     present (getToken (Http.localStorage (browser app))) = true /\
     exists profile,
       succeeded (api_getProfile (browser app)) = Some profile /\
       AuthContext.user (state after) = Some profile) /\
  (AuthContext.isAuthenticated (state after) = false ->
     present (getToken (Http.localStorage (browser after))) = false).
Proof.
  cbn zeta. unfold checkAuth, succeeded.
  destruct (present (getToken (Http.localStorage (browser app)))) eqn:Htok; cbn [negb].
  - cbn [dispatch browser].
    destruct (api_getProfile (browser app)) as [[response|thrown] b]; cbn [fst snd].
    + destruct (success response); [destruct (data response) as [profile|]|].
      * cbn. split; [reflexivity|]. split; [discriminate|].
        split; [split; [eauto | reflexivity] | discriminate].
      * cbn. split; [reflexivity|]. split; [discriminate|].
        split; [split; [discriminate | intros [_ (p & [=] & _)]] |].
        intros _. unfold present, getToken, clearTokens.
        rewrite lookup_delete_ne by discriminate. rewrite lookup_delete_eq. reflexivity.
      * destruct (data response); cbn;
          (split; [reflexivity|]; split; [discriminate|];
           split; [split; [discriminate | intros [_ (p & [=] & _)]] |];
           intros _; unfold present, getToken, clearTokens;
           rewrite lookup_delete_ne by discriminate; rewrite lookup_delete_eq; reflexivity).
    + cbn. split; [reflexivity|]. split; [discriminate|].
      split; [split; [discriminate | intros [_ (p & [=] & _)]] |].
      intros _. unfold present, getToken, clearTokens.
      rewrite lookup_delete_ne by discriminate. rewrite lookup_delete_eq. reflexivity.
  - cbn. split; [reflexivity|]. split; [destruct app; reflexivity|].
    split; [split; [discriminate | intros [[=] _]] |].
    intros _. exact Htok.
Qed.

Lemma update_cases app :
  (forall d,
     let r := api_updateProfile d (browser app) in
     let result := updateProfile_ d app in
     browser (snd result) = snd r /\
     match succeeded r with
     | Some patch =>
         fst result = true /\
         state (snd result) = AuthContext.authReducer (state app) (AuthContext.UPDATE_USER patch)
     | None =>
         fst result = false /\
         exists msg, state (snd result) = signed_out_state (Some msg)
     end) /\
  (forall currentPassword newPassword,
     let r := api_changePassword currentPassword newPassword (browser app) in
     let result := changePassword_ currentPassword newPassword app in
     browser (snd result) = snd r /\
     match fst r with
     | Fulfilled response =>
         if success response
         then fst result = true /\ state (snd result) = state app
         else fst result = false /\
              exists msg, state (snd result) = signed_out_state (Some msg)
     | Rejected _ =>
         fst result = false /\
         state (snd result) = signed_out_state (Some "Password change failed")
     end).
Proof.
  split.
  - intros d. cbn zeta. unfold updateProfile, succeeded.
    destruct (api_updateProfile d (browser app)) as [[response|thrown] b]; cbn [fst snd].
    + destruct (success response); [destruct (data response) as [patch|]|].
      * repeat split.
      * split; [reflexivity|]. split; [reflexivity|]. eexists; reflexivity.
      * destruct (data response);
          (split; [reflexivity|]; split; [reflexivity|]; eexists; reflexivity).
    + split; [reflexivity|]. split; [reflexivity|]. eexists; reflexivity.
  - intros c n. cbn zeta. unfold changePassword.
    destruct (api_changePassword c n (browser app)) as [[response|thrown] b]; cbn [fst snd].
    + destruct (success response).
      * repeat split.
      * split; [reflexivity|]. split; [reflexivity|]. eexists; reflexivity.
    + repeat split.
Qed.

(** X12: [updateProfile] and [changePassword] never touch the browser
    themselves: the storage and the address are afterwards exactly as the
    API call left them. A successful update merges the patch into the user
    and a successful password change leaves the state as it was. A failed
    one dispatches [AUTH_ERROR]: the state is signed out (no user, not
    authenticated), yet the provider clears no token, so the two tokens are
    the ones the call left in the storage. *)
Theorem failed_update_signs_out_without_clearing app :
  (forall d,
     let r := api_updateProfile d (browser app) in
     let result := updateProfile_ d app in
     browser (snd result) = snd r /\
     match succeeded r with
     | Some patch =>
         fst result = true /\
         state (snd result) = AuthContext.authReducer (state app) (AuthContext.UPDATE_USER patch)
     | None =>
         fst result = false /\
         exists msg, state (snd result) = signed_out_state (Some msg)
     end) /\
  (forall currentPassword newPassword,
     let r := api_changePassword currentPassword newPassword (browser app) in
     let result := changePassword_ currentPassword newPassword app in
     browser (snd result) = snd r /\
     match fst r with
     | Fulfilled response =>
         if success response
         then fst result = true /\ state (snd result) = state app
         else fst result = false /\
              exists msg, state (snd result) = signed_out_state (Some msg)
     | Rejected _ =>
         fst result = false /\
         state (snd result) = signed_out_state (Some "Password change failed")
     end) /\
  (forall d,
     let r := api_updateProfile d (browser app) in
     let result := updateProfile_ d app in
     fst result = false ->
     AuthContext.user (state (snd result)) = None /\
     AuthContext.isAuthenticated (state (snd result)) = false /\
     getToken (Http.localStorage (browser (snd result)))
       = getToken (Http.localStorage (snd r)) /\
     getRefreshToken (Http.localStorage (browser (snd result)))
       = getRefreshToken (Http.localStorage (snd r))) /\
  (forall currentPassword newPassword,
     let r := api_changePassword currentPassword newPassword (browser app) in
     let result := changePassword_ currentPassword newPassword app in
     fst result = false ->
     AuthContext.user (state (snd result)) = None /\
     AuthContext.isAuthenticated (state (snd result)) = false /\
     getToken (Http.localStorage (browser (snd result)))
       = getToken (Http.localStorage (snd r)) /\
     getRefreshToken (Http.localStorage (browser (snd result)))
       = getRefreshToken (Http.localStorage (snd r))).
Proof.
  destruct (update_cases app) as [Hupdate Hpassword].
  split; [exact Hupdate|]. split; [exact Hpassword|]. split.
  - intros d. cbn zeta. specialize (Hupdate d). cbn zeta in Hupdate.
    destruct Hupdate as [Hb Hcase]. rewrite Hb. intros Hfalse.
    destruct (succeeded (api_updateProfile d (browser app))) as [patch|].
    + destruct Hcase as [Htrue _]. congruence.
    + destruct Hcase as (_ & msg & ->). repeat split.
  - intros c n. cbn zeta. specialize (Hpassword c n). cbn zeta in Hpassword.
    destruct Hpassword as [Hb Hcase]. rewrite Hb. intros Hfalse.
    destruct (fst (api_changePassword c n (browser app))) as [response|thrown].
    + destruct (success response).
      * destruct Hcase as [Htrue _]. congruence.
      * destruct Hcase as (_ & msg & ->). repeat split.
    + destruct Hcase as (_ & ->). repeat split.
Qed.

End ProviderFacts.

(** With the network down, a profile update signs the demo user out and
    leaves the access token where it was. *)
Lemma failed_update_signs_out_without_clearing_witness :
  fst (AuthProvider.updateProfile Samples.api_update_off
         (AuthProvider.mkProfileData (Some "Ana") None) Samples.signed_in_app)
    = false /\
  AuthContext.isAuthenticated
    (AuthProvider.state
       (snd (AuthProvider.updateProfile Samples.api_update_off
               (AuthProvider.mkProfileData (Some "Ana") None)
               Samples.signed_in_app)))
    = false /\
  TokenManager.getToken
    (Http.localStorage
       (AuthProvider.browser
          (snd (AuthProvider.updateProfile Samples.api_update_off
                  (AuthProvider.mkProfileData (Some "Ana") None)
                  Samples.signed_in_app))))
    = Some "access-1".
Proof.
  split; [reflexivity|].
  split.
  - exact (proj1 (proj2
             (proj1 (proj2 (proj2
                (failed_update_signs_out_without_clearing
                   Samples.api_update_off Samples.api_password_off
                   Samples.signed_in_app)))
                (AuthProvider.mkProfileData (Some "Ana") None) eq_refl))).
  - exact (proj1 (proj2 (proj2
             (proj1 (proj2 (proj2
                (failed_update_signs_out_without_clearing
                   Samples.api_update_off Samples.api_password_off
                   Samples.signed_in_app)))
                (AuthProvider.mkProfileData (Some "Ana") None) eq_refl)))).
Defined.

(** ** The provider as mounted, and the routes *)

Section MountedFacts.
Import TokenManager AuthProvider AppRoutes.

Variable api_login : string -> string -> Call Credentials.
Variable api_register :
  string -> string -> option string -> option string -> Call Credentials.
Variable api_logout : Call JsValue.
Variable api_getProfile : Call User.
Variable api_updateProfile : ProfileData -> Call PartialUser.
Variable api_changePassword : string -> string -> Call JsValue.

Abbreviation perform_ :=
  (perform api_login api_register api_logout api_getProfile api_updateProfile
           api_changePassword).
Abbreviation mounted_ :=
  (mounted api_login api_register api_logout api_getProfile api_updateProfile
           api_changePassword).






(** The sign-in answers the casts [as User] are right about: every
    successful one carries a user. *)
Hypothesis login_has_user :
  forall em pw b c, succeeded (api_login em pw b) = Some c -> is_Some (user c).
Hypothesis register_has_user :
  forall em pw fn ln b c,
    succeeded (api_register em pw fn ln b) = Some c -> is_Some (user c).




End MountedFacts.

Section RouteFacts.
Import TokenManager AuthProvider AppRoutes.


Example login_without_user :
  let st :=
    state (mounted Samples.api_login_no_user Samples.api_sign_up_off Samples.api_off
                   Samples.api_off Samples.api_update_off Samples.api_password_off
                   Samples.fresh_browser [Login "demo@impulso.com" "Demo123!"]) in
  AuthContext.isAuthenticated st = true /\
  AuthContext.user st = None /\
  ProtectedRoute st = Children /\
  greeting st = None.
Proof. repeat split. Qed.


End RouteFacts.

Section DashboardFacts.
Import AppRoutes.

(** X14: the dashboard always shows exactly one of its three panels:
    the start of the analysis without a risk profile, the completed
    profile with a profile but no portfolio, the ready panel with both;
    without a user it shows the start panel and greets nobody. *)
Theorem dashboard_shows_one_panel st :
  DashboardPage st =
    [if has_risk_profile st
     then (if has_portfolio st then AllSet else ProfileCompleted)
     else StartAnalysis] /\
  (AuthContext.user st = None -> DashboardPage st = [StartAnalysis] /\ greeting st = None).
Proof.
  unfold DashboardPage, greeting.
  destruct (AuthContext.user st) as [u|] eqn:E.
  - split; [|discriminate].
    cbn [List.filter panel_shown]. unfold has_risk_profile, has_portfolio. rewrite E.
    destruct (Types.has_risk_profile u), (Types.has_portfolio u); reflexivity.
  - split; [|intros _; split; [|reflexivity]];
      cbn [List.filter panel_shown]; unfold has_risk_profile, has_portfolio;
      rewrite E; reflexivity.
Qed.

End DashboardFacts.

(** ** The questionnaire component *)

Section FlowFacts.
Import RiskAssessmentPage RiskAssessmentFlow.

Lemma click_in_range st c :
  0 <= currentStep st <= 9 -> 0 <= currentStep (click st c) <= 9.
Proof.
  intros H. destruct c; cbn [click]; unfold nextStep, prevStep, questions_length.
  - cbn [length questions Z.of_nat]. destruct (Z.ltb_spec (currentStep st) (Z.of_nat 10 - 1));
      cbn [currentStep]; lia.
  - destruct (Z.gtb_spec (currentStep st) 0); cbn [currentStep]; lia.
Qed.

Lemma click_keeps st c :
  isSubmitting (click st c) = isSubmitting st /\ riskResult (click st c) = riskResult st.
Proof.
  destruct c; cbn [click]; unfold nextStep, prevStep.
  - destruct (_ <? _); split; reflexivity.
  - destruct (_ >? _); split; reflexivity.
Qed.

Lemma fold_click_in_range clicks : forall st,
  0 <= currentStep st <= 9 ->
  0 <= currentStep (fold_left click clicks st) <= 9.
Proof.
  induction clicks as [|c clicks IH]; intros st H; [exact H|].
  cbn [fold_left]. apply IH, click_in_range, H.
Qed.

Lemma question_at_step st :
  0 <= currentStep st <= 9 -> is_Some (currentQuestion st).
Proof.
  intros H. unfold currentQuestion.
  destruct (Z.ltb_spec (currentStep st) 0); [lia|].
  assert (Z.to_nat (currentStep st) < 10)%nat as Hlt by lia.
  destruct (nth_error questions (Z.to_nat (currentStep st))) eqn:E; [eauto|].
  apply nth_error_None in E. change (length questions) with 10%nat in E. lia.
Qed.

Lemma fold_click_keeps clicks : forall st,
  isSubmitting (fold_left click clicks st) = isSubmitting st /\
  riskResult (fold_left click clicks st) = riskResult st.
Proof.
  induction clicks as [|c clicks IH]; intros st; [split; reflexivity|].
  cbn [fold_left]. destruct (IH (click st c)) as [-> ->]. apply click_keeps.
Qed.

Lemma fold_click_bound clicks : forall st,
  currentStep (fold_left click clicks st) <= currentStep st + forward_clicks clicks.
Proof.
  unfold forward_clicks.
  induction clicks as [|c clicks IH]; intros st; [cbn; lia|].
  cbn [fold_left]. specialize (IH (click st c)).
  destruct c; cbn [click List.filter length] in *.
  - unfold nextStep in *. destruct (_ <? _); cbn [currentStep] in *; lia.
  - unfold prevStep in *. destruct (_ >? _); cbn [currentStep] in *; lia.
Qed.

(** X15: after any run of clicks on "Siguiente" and "Anterior" the step is
    one of the ten questions, so [questions[currentStep]] is defined and
    the progress bar is above 0 and at most 100 percent; the submit button
    ([isLastStep]) shows at the tenth question only, which takes at least
    nine clicks on "Siguiente"; the clicks change nothing else. *)
Theorem wizard_stays_on_a_question clicks :
  let st := after_clicks clicks in
  0 <= currentStep st <= 9 /\
  is_Some (currentQuestion st) /\
  (0 < progress_pct st <= 100)%Q /\
  (isLastStep st = true <-> currentStep st = 9) /\
  (isLastStep st = true -> 9 <= forward_clicks clicks) /\
  isSubmitting st = false /\ riskResult st = VNull.
Proof.
  cbn zeta.
  assert (0 <= currentStep (after_clicks clicks) <= 9) as Hr
    by (apply fold_click_in_range; cbn; lia).
  split; [exact Hr|]. split; [apply question_at_step, Hr|].
  split; [|split; [|split]].
  - unfold progress_pct, questions_length.
    change (Z.of_nat (length questions)) with 10.
    split; [unfold Qlt | unfold Qle]; simpl; lia.
  - unfold isLastStep, questions_length.
    change (Z.of_nat (length questions)) with 10.
    rewrite Z.eqb_eq. lia.
  - unfold isLastStep, questions_length.
    change (Z.of_nat (length questions)) with 10.
    rewrite Z.eqb_eq. intros Hlast.
    pose proof (fold_click_bound clicks initialPage) as Hb.
    fold (after_clicks clicks) in Hb. cbn [currentStep initialPage] in Hb. lia.
  - apply (fold_click_keeps clicks initialPage).
Qed.

Lemma offered_age v :
  offered (mkQuestion "age" "¿Cuál es tu edad?" (slider 18 75 30)) v ->
  exists n, v = VNumber n /\ in_age_range n.
Proof.
  intros (a & -> & Ha). exists (of_Z a). split; [reflexivity|].
  unfold in_age_range, of_Z. split.
  - change 18%Q with (inject_Z 18). rewrite <- Zle_Qle. lia.
  - change 100%Q with (inject_Z 100). rewrite <- Zle_Qle. lia.
Qed.

Lemma offered_select k t options v :
  Forall (fun o => value o <> "") options ->
  offered (mkQuestion k t (select options)) v ->
  exists s, v = VString s /\ s <> "".
Proof.
  intros Hall (o & Ho & ->). exists (value o). split; [reflexivity|].
  rewrite Forall_forall in Hall. apply Hall. apply list_elem_of_In, Ho.
Qed.

Ltac nonempty_values := repeat (constructor; [discriminate|]); constructor.

(** X16: a form filled in through the inputs of the ten questions (an age
    on the slider, one of the offered options for each select) passes the
    schema, and the parsed object carries the ten answers as entered. *)
Theorem offered_answers_are_accepted props :
  (forall q, In q questions -> offered q (get_prop (VObject props) (key q))) ->
  exists out,
    safeParse riskAssessmentSchema (VObject props) = parse_success out /\
    forall f, In f QuestionnaireAnswers_keys ->
      get_prop out f = get_prop (VObject props) f.
Proof.
  intros Hoff.
  assert (accepts riskAssessmentSchema (VObject props) = true) as Hacc.
  { apply schema_accepts_iff. split; [eauto|]. split.
    - apply offered_age. apply (Hoff (mkQuestion "age" _ _)). left. reflexivity.
    - intros f Hf. cbn in Hf.
      destruct Hf as [<-|[<-|[<-|[<-|[<-|[<-|[<-|[<-|[<-|[]]]]]]]]]].
      + eapply offered_select; [|apply (Hoff (mkQuestion "horizon" _ _)); cbn; tauto].
        nonempty_values.
      + eapply offered_select; [|apply (Hoff (mkQuestion "income" _ _)); cbn; tauto].
        nonempty_values.
      + eapply offered_select; [|apply (Hoff (mkQuestion "knowledge" _ _)); cbn; tauto].
        nonempty_values.
      + eapply offered_select; [|apply (Hoff (mkQuestion "max_drop" _ _)); cbn; tauto].
        nonempty_values.
      + eapply offered_select; [|apply (Hoff (mkQuestion "reaction" _ _)); cbn; tauto].
        nonempty_values.
      + eapply offered_select; [|apply (Hoff (mkQuestion "liquidity" _ _)); cbn; tauto].
        nonempty_values.
      + eapply offered_select; [|apply (Hoff (mkQuestion "goal" _ _)); cbn; tauto].
        nonempty_values.
      + eapply offered_select; [|apply (Hoff (mkQuestion "inflation" _ _)); cbn; tauto].
        nonempty_values.
      + eapply offered_select; [|apply (Hoff (mkQuestion "digital" _ _)); cbn; tauto].
        nonempty_values. }
  unfold accepts in Hacc.
  destruct (safeParse riskAssessmentSchema (VObject props)) as [out|issues] eqn:E;
    [|discriminate].
  exists out. split; [reflexivity|].
  intros f Hf. apply parsed_field_unchanged; assumption.
Qed.

(** X17: what the schema hands on has exactly the ten questionnaire keys,
    whatever else the submission held, and parsing it again gives it back
    unchanged. *)
Theorem parsed_submission_is_canonical data out :
  safeParse riskAssessmentSchema data = parse_success out ->
  (exists props, out = VObject props /\ map fst props = QuestionnaireAnswers_keys) /\
  safeParse riskAssessmentSchema out = parse_success out.
Proof.
  unfold safeParse. destruct data as [| | | | |props]; try discriminate.
  destruct (shape_issues riskAssessmentSchema (VObject props)) as [|i issues] eqn:E;
    [|discriminate].
  intros [= <-]. split; [eexists; split; reflexivity|].
  match goal with
  | |- context [shape_issues riskAssessmentSchema ?o] =>
      change (shape_issues riskAssessmentSchema o)
        with (shape_issues riskAssessmentSchema (VObject props))
  end.
  rewrite E. reflexivity.
Qed.

Section SubmitFacts.

Variable request : Api.RequestConfig -> Settled Api.AxiosResponse Api.Thrown.

Lemma onSubmit_result data st :
  riskResult (onSubmit request data st) =
  match Api.createRiskProfile request data with
  | Fulfilled response =>
      if truthy (get_prop response "success") && truthy (get_prop response "data")
      then get_prop response "data"
      else riskResult st
  | Rejected _ => riskResult st
  end.
Proof.
  unfold onSubmit.
  destruct (Api.createRiskProfile request data) as [response|thrown]; [|reflexivity].
  destruct response; try reflexivity;
    destruct (truthy _ && truthy _); reflexivity.
Qed.

(** X18: [onSubmit] always ends with [isSubmitting] off and on the same
    step. The result changes only to the [data] of an answer whose
    [success] and [data] are truthy, and then the result view shows; a
    request that was rejected leaves the result as it was. *)
Theorem onSubmit_settles data st :
  let st' := onSubmit request data st in
  isSubmitting st' = false /\
  currentStep st' = currentStep st /\
  (riskResult st' <> riskResult st ->
     exists response,
       Api.createRiskProfile request data = Fulfilled response /\
       truthy (get_prop response "success") = true /\
       riskResult st' = get_prop response "data" /\
       shows_result st' = true) /\
  (forall response,
     Api.createRiskProfile request data = Fulfilled response ->
     truthy (get_prop response "success") = true ->
     truthy (get_prop response "data") = true ->
     riskResult st' = get_prop response "data") /\
  (forall thrown,
     request (Api.mkRequest Api.POST "/api/analysis/risk-profile"
                (VObject [("answers", data)])) = Rejected thrown ->
     riskResult st' = riskResult st).
Proof.
  cbn zeta. unfold shows_result. rewrite onSubmit_result.
  split; [reflexivity|]. split.
  { unfold onSubmit. destruct (Api.createRiskProfile request data) as [response|thrown];
      [|reflexivity].
    destruct response; try reflexivity; destruct (truthy _ && truthy _); reflexivity. }
  split; [|split].
  - destruct (Api.createRiskProfile request data) as [response|thrown]; [|congruence].
    destruct (truthy (get_prop response "success") && truthy (get_prop response "data"))
      eqn:Hok; [|congruence].
    apply andb_prop in Hok as [Hs Hd]. intros _. exists response. auto.
  - intros response -> -> ->. reflexivity.
  - intros thrown Hrej.
    destruct (apiRequest_rejected request Api.POST "/api/analysis/risk-profile"
                (VObject [("answers", data)]) thrown Hrej) as (v & Hv & Hfalse).
    unfold Api.createRiskProfile. rewrite Hv, Hfalse. reflexivity.
Qed.

End SubmitFacts.

End FlowFacts.


Lemma offered_option k t options v :
  In v (map RiskAssessmentPage.value options) ->
  RiskAssessmentFlow.offered
    (RiskAssessmentPage.mkQuestion k t (RiskAssessmentPage.select options)) (VString v).
Proof.
  intros Hv. apply in_map_iff in Hv as (o & <- & Ho). exists o. split; [exact Ho | reflexivity].
Qed.

Lemma sample_form_offered q :
  In q RiskAssessmentPage.questions ->
  RiskAssessmentFlow.offered q
    (get_prop (Types.answers_object Samples.sample_answers) (RiskAssessmentPage.key q)).
Proof.
  intros Hq. cbn in Hq.
  destruct Hq as [<-|[<-|[<-|[<-|[<-|[<-|[<-|[<-|[<-|[<-|[]]]]]]]]]]];
    [exists 30; split; [reflexivity | lia] | ..];
    apply offered_option; cbn; tauto.
Qed.

(** The sample form, filled in from the inputs, is accepted. *)
Lemma offered_answers_are_accepted_witness :
  exists out,
    safeParse RiskAssessmentPage.riskAssessmentSchema Samples.sample_submission
      = parse_success out /\
    forall f, In f QuestionnaireAnswers_keys ->
      get_prop out f = get_prop Samples.sample_submission f.
Proof.
  exact (offered_answers_are_accepted _ sample_form_offered).
Defined.

Lemma padded_submission_parsed :
  safeParse RiskAssessmentPage.riskAssessmentSchema Samples.padded_submission
  = parse_success Samples.sample_submission.
Proof. vm_compute. reflexivity. Qed.

(** A submission with a stray field comes out with the ten keys only. *)
Lemma parsed_submission_is_canonical_witness :
  safeParse RiskAssessmentPage.riskAssessmentSchema Samples.padded_submission
    = parse_success Samples.sample_submission /\
  safeParse RiskAssessmentPage.riskAssessmentSchema Samples.sample_submission
    = parse_success Samples.sample_submission.
Proof.
  split; [exact padded_submission_parsed|].
  exact (proj2 (parsed_submission_is_canonical Samples.padded_submission
                  Samples.sample_submission padded_submission_parsed)).
Defined.
